(** * plai-actions: a shallow embedding of src/index.ts and src/types.ts

    The program fetches the Premier League table and the coming fixtures,
    shapes both into a prompt, sends the prompt to a text-generation service
    and stores the answer in ./output/data.json.

    Layout of this development:
    - [Js]: the fragment of JavaScript's dynamic values the program inspects
      (truthiness, property reads, abrupt completion);
    - the records of types.ts;
    - the pure formatters of index.ts;
    - a state-and-exception monad over a [World] for the effectful part
      (environment, network, console, file system, process exit);
    - the theorems. *)

From Stdlib Require Import ZArith QArith String Ascii List Lia DecimalString.
From stdpp Require Import base strings list gmap.

Open Scope string_scope.
Open Scope list_scope.
Open Scope Z_scope.

Set Warnings "-register-all".

(** ** JavaScript values and completions *)

Module Js.

(** A value as [JSON.parse] or a property read can produce it. Objects keep
    their keys in insertion order. *)
Inductive JsValue : Type :=
| JUndefined
| JNull
| JBool (b : bool)
| JNum (q : Q)
| JStr (s : string)
| JArr (items : list JsValue)
| JObj (fields : list (string * JsValue)).

(** What a [throw] carries. [AxiosError] is the only error for which
    [axios.isAxiosError] answers true; its [response] is absent when the
    request never got an answer. *)
Inductive JsError : Type :=
| Error (message : string)
| TypeError (message : string)
| AxiosError (message : string) (response : option JsValue).

Definition message_of (e : JsError) : string :=
  match e with
  | Error m | TypeError m | AxiosError m _ => m
  end.

Definition isAxiosError (e : JsError) : bool :=
  match e with
  | AxiosError _ _ => true
  | _ => false
  end.

(** How a piece of code ends: with a value, with a thrown error, or by
    [process.exit], which no [catch] intercepts. *)
Inductive Completion (A : Type) : Type :=
| Normal (a : A)
| Throw (e : JsError)
| Exit (code : Z).
Arguments Normal {A} a.
Arguments Throw {A} e.
Arguments Exit {A} code.

Definition bindC {A B} (m : Completion A) (k : A -> Completion B) : Completion B :=
  match m with
  | Normal a => k a
  | Throw e => Throw e
  | Exit c => Exit c
  end.

(** ToBoolean. *)
Definition truthy (v : JsValue) : bool :=
  match v with
  | JUndefined | JNull => false
  | JBool b => b
  | JNum q => negb (Qnum q =? 0)
  | JStr s => negb (String.eqb s "")
  | JArr _ | JObj _ => true
  end.

Fixpoint lookup_field (k : string) (fields : list (string * JsValue)) : JsValue :=
  match fields with
  | [] => JUndefined
  | (k', v) :: rest => if String.eqb k k' then v else lookup_field k rest
  end.

Definition kind_name (v : JsValue) : string :=
  match v with
  | JNull => "null"
  | _ => "undefined"
  end.

(** [v.k] for a key that no prototype defines: reading from undefined or
    null throws, primitives and arrays answer undefined. *)
Definition get (v : JsValue) (k : string) : Completion JsValue :=
  match v with
  | JUndefined | JNull =>
      Throw (TypeError ("Cannot read properties of " +:+ kind_name v
                        +:+ " (reading '" +:+ k +:+ "')"))
  | JObj fields => Normal (lookup_field k fields)
  | _ => Normal JUndefined
  end.

(** [v[0]]. A string answers its first character, an object its field
    named 0. *)
Definition get0 (v : JsValue) : Completion JsValue :=
  match v with
  | JUndefined | JNull =>
      Throw (TypeError ("Cannot read properties of " +:+ kind_name v
                        +:+ " (reading '0')"))
  | JArr items => Normal (match items with [] => JUndefined | x :: _ => x end)
  | JStr s => Normal (match s with
                      | EmptyString => JUndefined
                      | String c _ => JStr (String c EmptyString)
                      end)
  | JObj fields => Normal (lookup_field "0" fields)
  | _ => Normal JUndefined
  end.

End Js.
Import Js.

Notation "x <-- m ;; k" := (bindC m (fun x => k))
  (at level 100, m at next level, right associativity).

(** ** types.ts *)

(** The numeric fields of the sports-data records are counts and ranks; the
    program copies and compares them and never computes with them. *)
Definition number := Z.

Record Team := {
  team_id : number;
  name : string;
  shortName : string;
  tla : string;
  crest : string
}.

Record StandingEntry := {
  position : number;
  team : Team;
  playedGames : number;
  won : number;
  draw : number;
  lost : number;
  points : number;
  goalsFor : number;
  goalsAgainst : number;
  goalDifference : number;
  form : string
}.

(** Modelled from the spec: the field [matchday], which formatFixtures reads
    and the declaration of Match in types.ts leaves out. The spec's data
    model lists a matchday number among the fields of a Match and its
    glossary calls it an integer. *)
Record Match := {
  match_id : number;
  homeTeam : Team;
  awayTeam : Team;
  utcDate : string;
  status : string;
  matchday : number
}.

Record FormattedStanding := {
  f_position : number;
  f_team : string;
  MP : number;
  W : number;
  D : number;
  L : number;
  F : number;
  A : number;
  GD : number;
  P : number;
  f_form : string
}.

Record PredictionResult := {
  prediction : string;
  probability : Q;
  analysis : string
}.

Record MatchPrediction := {
  match_label : string;
  potentialScore : string;
  result : PredictionResult;
  overUnder : PredictionResult;
  bothTeamsToScore : PredictionResult
}.

Record PredictionResponse := {
  predictions : list MatchPrediction
}.

(** The JavaScript object that a value of each prediction type is. *)
Definition PredictionResult_to_js (r : PredictionResult) : JsValue :=
  JObj [("prediction", JStr r.(prediction));
        ("probability", JNum r.(probability));
        ("analysis", JStr r.(analysis))].

Definition MatchPrediction_to_js (m : MatchPrediction) : JsValue :=
  JObj [("match", JStr m.(match_label));
        ("potentialScore", JStr m.(potentialScore));
        ("result", PredictionResult_to_js m.(result));
        ("overUnder", PredictionResult_to_js m.(overUnder));
        ("bothTeamsToScore", PredictionResult_to_js m.(bothTeamsToScore))].

Definition PredictionResponse_to_js (p : PredictionResponse) : JsValue :=
  JObj [("predictions", JArr (List.map MatchPrediction_to_js p.(predictions)))].

(** ** Strings and arrays *)

Definition newline : string := String "010"%char EmptyString.
Definition dquote : string := String "034"%char EmptyString.

(** Array.prototype.join on an array of strings. *)
Fixpoint Array_join (sep : string) (xs : list string) : string :=
  match xs with
  | [] => ""
  | x :: rest =>
      match rest with
      | [] => x
      | _ :: _ => x +:+ sep +:+ Array_join sep rest
      end
  end.

(** Array.prototype.filter and Array.prototype.map. *)
Fixpoint Array_filter {T} (keep : T -> bool) (xs : list T) : list T :=
  match xs with
  | [] => []
  | x :: rest => if keep x then x :: Array_filter keep rest else Array_filter keep rest
  end.

Fixpoint Array_map {T U} (f : T -> U) (xs : list T) : list U :=
  match xs with
  | [] => []
  | x :: rest => f x :: Array_map f rest
  end.

(** [xs[i]] on a typed array: nothing out of range. *)
Fixpoint Array_at {T} (xs : list T) (i : nat) : option T :=
  match xs, i with
  | [], _ => None
  | x :: _, O => Some x
  | _ :: rest, S j => Array_at rest j
  end.

(** Reading property [k] of an array element that may be undefined. *)
Definition read {T U} (element : option T) (k : string) (field : T -> U) : Completion U :=
  match element with
  | Some x => Normal (field x)
  | None => Throw (TypeError ("Cannot read properties of undefined (reading '"
                              +:+ k +:+ "')"))
  end.

(** ** index.ts, the formatters *)

Definition formatStandingsTable (standings : list StandingEntry) : list FormattedStanding :=
  Array_map (fun team0 =>
    {| f_position := team0.(position);
       f_team := team0.(team).(name);
       MP := team0.(playedGames);
       W := team0.(won);
       D := team0.(draw);
       L := team0.(lost);
       F := team0.(goalsFor);
       A := team0.(goalsAgainst);
       GD := team0.(goalDifference);
       P := team0.(points);
       f_form := team0.(form) |}) standings.

Definition render_fixture (m : Match) : string :=
  m.(homeTeam).(name) +:+ " - " +:+ m.(awayTeam).(name).

Definition formatFixtures (fixtures : list Match) : Completion string :=
  if (Z.of_nat (length fixtures) =? 0) then Normal ""
  else
    md <-- read (Array_at fixtures 0) "matchday" matchday ;;
    Normal (Array_join newline
              (Array_map render_fixture
                 (Array_filter (fun m => m.(matchday) =? md) fixtures))).

(** ** JSON.stringify(standings, null, 2) *)

Definition backslash : string := String "092"%char EmptyString.

Definition hex_digit (n : nat) : ascii :=
  if (n <? 10)%nat then ascii_of_nat (48 + n) else ascii_of_nat (87 + n).

(** QuoteJSONString, one character at a time. *)
Definition json_escape_char (c : ascii) : string :=
  let n := nat_of_ascii c in
  if (n =? 8)%nat then backslash +:+ "b"
  else if (n =? 9)%nat then backslash +:+ "t"
  else if (n =? 10)%nat then backslash +:+ "n"
  else if (n =? 12)%nat then backslash +:+ "f"
  else if (n =? 13)%nat then backslash +:+ "r"
  else if (n =? 34)%nat then backslash +:+ dquote
  else if (n =? 92)%nat then backslash +:+ backslash
  else if (n <? 32)%nat then
    backslash +:+ "u00"
      +:+ String (hex_digit (n / 16)) (String (hex_digit (n mod 16)) EmptyString)
  else String c EmptyString.

Fixpoint json_escape (s : string) : string :=
  match s with
  | EmptyString => EmptyString
  | String c rest => json_escape_char c +:+ json_escape rest
  end.

Definition json_string (s : string) : string := dquote +:+ json_escape s +:+ dquote.

Definition json_number (n : number) : string := NilEmpty.string_of_int (Z.to_int n).

Definition json_property (indent key value : string) : string :=
  indent +:+ dquote +:+ key +:+ dquote +:+ ": " +:+ value.

(** One row, as an element of the top-level array: the braces are indented
    by two spaces and the properties by four, in the order in which the
    object literal of formatStandingsTable lists them. *)
Definition json_standing (s : FormattedStanding) : string :=
  "  {" +:+ newline +:+
  Array_join ("," +:+ newline)
    [ json_property "    " "position" (json_number s.(f_position));
      json_property "    " "team" (json_string s.(f_team));
      json_property "    " "MP" (json_number s.(MP));
      json_property "    " "W" (json_number s.(W));
      json_property "    " "D" (json_number s.(D));
      json_property "    " "L" (json_number s.(L));
      json_property "    " "F" (json_number s.(F));
      json_property "    " "A" (json_number s.(A));
      json_property "    " "GD" (json_number s.(GD));
      json_property "    " "P" (json_number s.(P));
      json_property "    " "form" (json_string s.(f_form)) ]
  +:+ newline +:+ "  }".

Definition JSON_stringify (standings : list FormattedStanding) : string :=
  match standings with
  | [] => "[]"
  | _ :: _ =>
      "[" +:+ newline +:+
      Array_join ("," +:+ newline) (Array_map json_standing standings)
      +:+ newline +:+ "]"
  end.

(** ** index.ts, the prompt *)

Definition quoted (s : string) : string := dquote +:+ s +:+ dquote.

(** The template literal of generatePrompt, line by line; the two
    interpolations stand where the template has them. *)
Definition generatePrompt (standings : list FormattedStanding) (fixtures : string) : string :=
  Array_join newline
    [ "Use this example football league table.";
      JSON_stringify standings;
      "";
      "Table headers are:";
      "MP means Matches Played";
      "W means number of wins";
      "D means number of draws";
      "L means number of losses";
      "F means goals scored";
      "A means goals conceded";
      "D is the goals difference";
      "P is the number of points";
      "";
      "Assume that these are the fixtures:";
      "";
      fixtures;
      "";
      "Act like a professional football match predictor and analyse these fixtures.";
      "For each match provide";
      "- A potential score";
      "- 90 minute result Win/Draw/Lose";
      "- Over or Under 2.5 goals";
      "- Both teams to score Yes/No";
      "- Probably of each of these predictions happening separately";
      "";
      "Print in JSON format as shown in the example below:";
      "{";
      "  " +:+ quoted "predictions" +:+ ": [";
      "    {";
      "      " +:+ quoted "match" +:+ ": " +:+ quoted "Team A v Team B" +:+ ",";
      "      " +:+ quoted "potentialScore" +:+ ": " +:+ quoted "2-1" +:+ ",";
      "      " +:+ quoted "result" +:+ ": {";
      "        " +:+ quoted "prediction" +:+ ": " +:+ quoted "Team A Win" +:+ ",";
      "        " +:+ quoted "probability" +:+ ": 65,";
      "        " +:+ quoted "analysis" +:+ ": " +:+ quoted "Analysis here";
      "      },";
      "      " +:+ quoted "overUnder" +:+ ": {";
      "        " +:+ quoted "prediction" +:+ ": " +:+ quoted "Over 2.5 Goals" +:+ ",";
      "        " +:+ quoted "probability" +:+ ": 60,";
      "        " +:+ quoted "analysis" +:+ ": " +:+ quoted "Analysis here";
      "      },";
      "      " +:+ quoted "bothTeamsToScore" +:+ ": {";
      "        " +:+ quoted "prediction" +:+ ": " +:+ quoted "Yes" +:+ ",";
      "        " +:+ quoted "probability" +:+ ": 75,";
      "        " +:+ quoted "analysis" +:+ ": " +:+ quoted "Analysis here";
      "      }";
      "    }";
      "  ]";
      "}" ].

(** ** Reading a text *)

(** String.prototype.startsWith and String.prototype.includes. *)
Fixpoint startsWith (s prefix : string) : bool :=
  match prefix, s with
  | EmptyString, _ => true
  | String a prefix', String b s' => Ascii.eqb a b && startsWith s' prefix'
  | String _ _, EmptyString => false
  end.

Fixpoint includes (s needle : string) : bool :=
  startsWith s needle ||
  match s with
  | EmptyString => false
  | String _ s' => includes s' needle
  end.

Fixpoint has_newline (s : string) : bool :=
  match s with
  | EmptyString => false
  | String c rest => Ascii.eqb c "010" || has_newline rest
  end.

(** The pieces of a text between its newline characters. *)
Fixpoint split_newlines (s : string) : list string :=
  match s with
  | EmptyString => [EmptyString]
  | String c rest =>
      if Ascii.eqb c "010" then EmptyString :: split_newlines rest
      else match split_newlines rest with
           | [] => [String c EmptyString]
           | l :: ls => String c l :: ls
           end
  end.

(** The lines of a text; the empty text has none. *)
Definition lines (s : string) : list string :=
  match s with
  | EmptyString => []
  | String _ _ => split_newlines s
  end.

Definition line_count (s : string) : nat := length (lines s).

Definition first_line (s : string) : option string := List.hd_error (lines s).

(** ** The world around the program *)

(** What axios resolves or rejects with. *)
Inductive Reply (T : Type) : Type :=
| Answer (data : T)
| Rejected (e : JsError).
Arguments Answer {T} data.
Arguments Rejected {T} e.

Inductive Request : Type :=
| GET (url : string) (headers params : list (string * JsValue))
| POST (url : string) (body : JsValue).

(** The body of the standings answer as getStandings reads it,
    [data.standings[0].table], and of the matches answer, [data.matches],
    which may be missing. Their elements have the types that the return
    types of the two fetchers declare. *)
Record StandingsGroup := { table : list StandingEntry }.
Record StandingsBody := { standings : list StandingsGroup }.
Record MatchesBody := { matches : option (list Match) }.

(** Everything the program reads and does not control: the .env file, the
    two dates that getFixtures derives from the clock, and the services. The
    answer of the text-generation service is left untyped: getPredictions
    inspects its shape. *)
Record Outside := {
  dotenv_file : gmap string string;
  date_from : string;
  date_to : string;
  standings_service : Request -> Reply StandingsBody;
  matches_service : Request -> Reply MatchesBody;
  gemini_service : Request -> Reply JsValue
}.

Inductive Level : Type := LOG | WARN | ERROR.

(** What the program changes: its environment table, the requests it has
    sent, the console, and the file system (oldest entry first in each
    list). *)
Record State := {
  process_env : gmap string string;
  requests : list Request;
  console : list (Level * list JsValue);
  fs_dirs : gset string;
  fs_files : gmap string string;
  fs_writes : list (string * string)
}.

Definition set_env (e : gmap string string) (s : State) : State :=
  {| process_env := e; requests := s.(requests); console := s.(console);
     fs_dirs := s.(fs_dirs); fs_files := s.(fs_files); fs_writes := s.(fs_writes) |}.

Definition add_request (r : Request) (s : State) : State :=
  {| process_env := s.(process_env); requests := s.(requests) ++ [r];
     console := s.(console);
     fs_dirs := s.(fs_dirs); fs_files := s.(fs_files); fs_writes := s.(fs_writes) |}.

Definition add_console (l : Level * list JsValue) (s : State) : State :=
  {| process_env := s.(process_env); requests := s.(requests);
     console := s.(console) ++ [l];
     fs_dirs := s.(fs_dirs); fs_files := s.(fs_files); fs_writes := s.(fs_writes) |}.

Definition add_dir (d : string) (s : State) : State :=
  {| process_env := s.(process_env); requests := s.(requests); console := s.(console);
     fs_dirs := {[ d ]} ∪ s.(fs_dirs); fs_files := s.(fs_files);
     fs_writes := s.(fs_writes) |}.

Definition put_file (path content : string) (s : State) : State :=
  {| process_env := s.(process_env); requests := s.(requests); console := s.(console);
     fs_dirs := s.(fs_dirs); fs_files := <[ path := content ]> s.(fs_files);
     fs_writes := s.(fs_writes) ++ [(path, content)] |}.

(** ** The monad of the effectful code *)

Definition Run (T : Type) : Type := State -> Completion T * State.

Definition ret {T} (x : T) : Run T := fun s => (Normal x, s).

Definition bind {T U} (m : Run T) (k : T -> Run U) : Run U :=
  fun s =>
    match m s with
    | (Normal x, s') => k x s'
    | (Throw e, s') => (Throw e, s')
    | (Exit c, s') => (Exit c, s')
    end.

Definition throw {T} (e : JsError) : Run T := fun s => (Throw e, s).

(** try { body } catch (error) { handler }: only a throw reaches the
    handler. *)
Definition try_catch {T} (body : Run T) (handler : JsError -> Run T) : Run T :=
  fun s =>
    match body s with
    | (Throw e, s') => handler e s'
    | other => other
    end.

Definition lift {T} (c : Completion T) : Run T := fun s => (c, s).

Definition when (b : bool) (m : Run unit) : Run unit := if b then m else ret tt.

Fixpoint for_of {T} (xs : list T) (body : T -> Run unit) : Run unit :=
  match xs with
  | [] => ret tt
  | x :: rest => bind (body x) (fun _ => for_of rest body)
  end.

Notation "x <- m ;; k" := (bind m (fun x => k))
  (at level 100, m at next level, right associativity).
Notation "m ;;; k" := (bind m (fun _ => k))
  (at level 100, right associativity).

(** ** The collaborators: process, console, axios, fs *)

Definition js_of_env (v : option string) : JsValue :=
  match v with
  | Some text => JStr text
  | None => JUndefined
  end.

(** process.env[k] *)
Definition process_env_get (k : string) : Run JsValue :=
  fun s => (Normal (js_of_env (s.(process_env) !! k)), s).

(** A value inside a template literal, for the values the program puts
    there. *)
Definition interpolate (v : JsValue) : string :=
  match v with
  | JStr text => text
  | _ => "undefined"
  end.

Definition process_exit {T} (code : Z) : Run T := fun s => (Exit code, s).

Definition console_log (args : list JsValue) : Run unit :=
  fun s => (Normal tt, add_console (LOG, args) s).
Definition console_warn (args : list JsValue) : Run unit :=
  fun s => (Normal tt, add_console (WARN, args) s).
Definition console_error (args : list JsValue) : Run unit :=
  fun s => (Normal tt, add_console (ERROR, args) s).

(** axios.get and axios.post against one service: the request is sent, then
    the promise resolves with the body or rejects. *)
Definition axios {T} (service : Request -> Reply T) (r : Request) : Run T :=
  fun s =>
    match service r with
    | Answer data => (Normal data, add_request r s)
    | Rejected e => (Throw e, add_request r s)
    end.

Definition fs_existsSync (path : string) : Run bool :=
  fun s => (Normal (bool_decide (path ∈ s.(fs_dirs))), s).

Definition fs_mkdirSync (path : string) : Run unit :=
  fun s => (Normal tt, add_dir path s).

Definition invalid_data_message : string :=
  "The " +:+ dquote +:+ "data" +:+ dquote +:+
  " argument must be of type string or an instance of Buffer, TypedArray, or DataView.".

(** fs.writeFileSync(path, data) replaces the content of the file; data
    that is no string is refused. *)
Definition fs_writeFileSync (path : string) (data : JsValue) : Run unit :=
  match data with
  | JStr content => fun s => (Normal tt, put_file path content s)
  | _ => throw (TypeError invalid_data_message)
  end.

(** ** index.ts, the effectful part *)

Definition requiredEnvVars : list string := ["FOOTBALL_API_KEY"; "GOOGLE_API_KEY"].

Definition FOOTBALL_API_BASE : string := "http://api.football-data.org/v4".
Definition PREMIER_LEAGUE_ID : string := "PL".

Section Program.

Variable outside : Outside.

(** dotenv.config(): the variables of the .env file that the environment
    does not define yet are added to it. *)
Definition dotenv_config : Run unit :=
  fun s => (Normal tt, set_env (s.(process_env) ∪ outside.(dotenv_file)) s).

Definition getStandings : Run (list StandingEntry) :=
  try_catch
    (token <- process_env_get "FOOTBALL_API_KEY" ;;
     response <- axios outside.(standings_service)
       (GET (FOOTBALL_API_BASE +:+ "/competitions/" +:+ PREMIER_LEAGUE_ID +:+ "/standings")
            [("X-Auth-Token", token)] []) ;;
     lift (read (Array_at response.(standings) 0) "table" table))
    (fun error =>
       console_error [JStr "Error fetching standings:"; JStr (message_of error)] ;;;
       throw error).

Definition getFixtures : Run (list Match) :=
  try_catch
    (let dateFrom := outside.(date_from) in
     let dateTo := outside.(date_to) in
     console_log [JStr ("📅 Fetching fixtures from " +:+ dateFrom +:+ " to " +:+ dateTo)] ;;;
     token <- process_env_get "FOOTBALL_API_KEY" ;;
     response <- axios outside.(matches_service)
       (GET (FOOTBALL_API_BASE +:+ "/competitions/" +:+ PREMIER_LEAGUE_ID +:+ "/matches")
            [("X-Auth-Token", token)]
            [("dateFrom", JStr dateFrom); ("dateTo", JStr dateTo);
             ("status", JStr "SCHEDULED")]) ;;
     when (match response.(matches) with
           | None => true
           | Some found => Z.of_nat (length found) =? 0
           end)
          (console_warn [JStr "⚠️ No fixtures found in the specified date range"]) ;;;
     ret (match response.(matches) with
          | Some found => found
          | None => []
          end))
    (fun error =>
       console_error [JStr "Error fetching fixtures:"; JStr (message_of error)] ;;;
       throw error).

Definition gemini_url (key : JsValue) : string :=
  "https://generativelanguage.googleapis.com/v1beta/models/gemini-2.0-flash:generateContent?key="
  +:+ interpolate key.

Definition gemini_body (prompt : string) : JsValue :=
  JObj [("contents", JArr [JObj [("parts", JArr [JObj [("text", JStr prompt)]])]]);
        ("generationConfig",
         JObj [("temperature", JNum (7 # 10));
               ("topK", JNum 1);
               ("topP", JNum 1);
               ("maxOutputTokens", JNum 2048)])].

(** The condition [data.candidates && data.candidates[0].content]: the
    right operand is read only when the left one is truthy. *)
Definition has_content (data : JsValue) : Completion JsValue :=
  candidates <-- get data "candidates" ;;
  if truthy candidates then
    first <-- get0 candidates ;;
    get first "content"
  else Normal candidates.

(** [data.candidates[0].content.parts[0].text] *)
Definition generated_text (data : JsValue) : Completion JsValue :=
  candidates <-- get data "candidates" ;;
  first <-- get0 candidates ;;
  content <-- get first "content" ;;
  parts <-- get content "parts" ;;
  part <-- get0 parts ;;
  get part "text".

Definition getPredictions (prompt : string) : Run JsValue :=
  try_catch
    (console_log [JStr "🔄 Preparing AI request..."] ;;;
     key <- process_env_get "GOOGLE_API_KEY" ;;
     data <- axios outside.(gemini_service) (POST (gemini_url key) (gemini_body prompt)) ;;
     condition <- lift (has_content data) ;;
     if truthy condition then
       predictions <- lift (generated_text data) ;;
       ret predictions
     else
       throw (Error "Invalid response format from Gemini API"))
    (fun error =>
       console_error [JStr "❌ Error generating AI prediction:"; JStr (message_of error)] ;;;
       when (isAxiosError error)
            (console_error [JStr "API Response:";
                            match error with
                            | AxiosError _ (Some data) => data
                            | _ => JUndefined
                            end]) ;;;
       throw error).

Definition outputPath : string := "./output/data.json".

Definition main : Run unit :=
  try_catch
    (console_log [JStr "🚀 Starting PLAI predictions..."] ;;;
     console_log [JStr "📊 Fetching Premier League standings..."] ;;;
     standings <- getStandings ;;
     console_log [JStr "✅ Standings fetched successfully!"] ;;;
     console_log [JStr "📅 Fetching upcoming fixtures..."] ;;;
     fixtures <- getFixtures ;;
     console_log [JStr "✅ Fixtures fetched successfully!"] ;;;
     console_log [JStr "🔄 Formatting data..."] ;;;
     let formattedStandings := formatStandingsTable standings in
     formattedFixtures <- lift (formatFixtures fixtures) ;;
     console_log [JStr "✅ Data formatted successfully!"] ;;;
     console_log [JStr "📝 Generating AI prompt..."] ;;;
     let prompt := generatePrompt formattedStandings formattedFixtures in
     console_log [JStr "✅ Prompt generated successfully!"] ;;;
     console_log [JStr "🤖 Getting predictions from AI..."] ;;;
     predictions <- getPredictions prompt ;;
     console_log [JStr "✅ AI predictions received!"] ;;;
     present <- fs_existsSync "./output" ;;
     when (negb present) (fs_mkdirSync "./output") ;;;
     fs_writeFileSync outputPath (JStr "") ;;;
     fs_writeFileSync outputPath predictions ;;;
     console_log [JStr ("✅ Predictions have been saved to: " +:+ outputPath)])
    (fun error =>
       console_error [JStr "❌ Error in main process:"; JStr (message_of error)] ;;;
       process_exit 1).

(** The module body: load .env, check the two variables, start main. *)
Definition program : Run unit :=
  dotenv_config ;;;
  for_of requiredEnvVars (fun envVar =>
    value <- process_env_get envVar ;;
    when (negb (truthy value))
         (throw (Error ("Missing required environment variable: " +:+ envVar)))) ;;;
  main.

(** The exit code of the process: an error nobody caught ends it with 1. *)
Definition exit_code (c : Completion unit) : Z :=
  match c with
  | Normal _ => 0
  | Throw _ => 1
  | Exit code => code
  end.

Definition run (s : State) : Z * State :=
  let (c, s') := program s in (exit_code c, s').

End Program.

(** A process that starts with nothing sent, nothing printed and an empty
    working directory. *)
Definition fresh (env : gmap string string) : State :=
  {| process_env := env; requests := []; console := [];
     fs_dirs := ∅; fs_files := ∅; fs_writes := [] |}.

(** ** What the statements below speak of *)

(** The fixtures of the input that share the matchday of its first element. *)
Definition sharing_first_matchday (fixtures : list Match) : list Match :=
  match fixtures with
  | [] => []
  | first :: _ => List.filter (fun m => m.(matchday) =? first.(matchday)) fixtures
  end.

(** Neither team name of the fixture runs over a line end. *)
Definition names_on_one_line (m : Match) : bool :=
  negb (has_newline m.(homeTeam).(name)) && negb (has_newline m.(awayTeam).(name)).

(** The answer of the text-generation service with [text] as its first
    part: { candidates: [ { content: { parts: [ { text } ] } } ] }. *)
Definition answer_with_text (text : JsValue) : JsValue :=
  JObj [("candidates",
         JArr [JObj [("content", JObj [("parts", JArr [JObj [("text", text)]])])]])].

(** The same answer with a first part that carries no text. *)
Definition answer_without_text : JsValue :=
  JObj [("candidates", JArr [JObj [("content", JObj [("parts", JArr [JObj []])])]])].

(** An answer whose list of candidates is empty: { candidates: [] }. *)
Definition answer_without_candidates : JsValue := JObj [("candidates", JArr [])].

(** The requests that the three fetchers send from a state [s]. *)
Definition standings_request (s : State) : Request :=
  GET (FOOTBALL_API_BASE +:+ "/competitions/" +:+ PREMIER_LEAGUE_ID +:+ "/standings")
      [("X-Auth-Token", js_of_env (s.(process_env) !! "FOOTBALL_API_KEY"))] [].

Definition matches_request (outside : Outside) (s : State) : Request :=
  GET (FOOTBALL_API_BASE +:+ "/competitions/" +:+ PREMIER_LEAGUE_ID +:+ "/matches")
      [("X-Auth-Token", js_of_env (s.(process_env) !! "FOOTBALL_API_KEY"))]
      [("dateFrom", JStr outside.(date_from)); ("dateTo", JStr outside.(date_to));
       ("status", JStr "SCHEDULED")].

Definition gemini_request (s : State) (prompt : string) : Request :=
  POST (gemini_url (js_of_env (s.(process_env) !! "GOOGLE_API_KEY"))) (gemini_body prompt).

(** State [s'] has the files, the directories and the write history of
    [s], and the same environment. *)
Definition same_files (s s' : State) : Prop :=
  fs_writes s' = fs_writes s /\ fs_files s' = fs_files s /\ fs_dirs s' = fs_dirs s /\
  process_env s' = process_env s.

(** The first candidate of the answer has a content: the condition of
    getPredictions is truthy. *)
Definition content_exists (data : JsValue) : Prop :=
  exists condition, has_content data = Normal condition /\ truthy condition = true.

(** ** The scenario of the specification *)

Definition club (n : string) : Team :=
  {| team_id := 0; name := n; shortName := n; tla := n; crest := "" |}.

Definition fixture (home away : string) (day : number) : Match :=
  {| match_id := 0; homeTeam := club home; awayTeam := club away;
     utcDate := "2026-01-03T15:00:00Z"; status := "SCHEDULED"; matchday := day |}.

Definition scenario_standings : list StandingEntry :=
  [ {| position := 1; team := club "Arsenal"; playedGames := 10; won := 8; draw := 1;
       lost := 1; points := 25; goalsFor := 20; goalsAgainst := 5;
       goalDifference := 15; form := "WWWWD" |} ].

Definition scenario_fixtures : list Match :=
  [ fixture "Arsenal" "Chelsea" 11; fixture "Liverpool" "City" 11;
    fixture "Arsenal" "City" 12 ].

(** A fixture whose home team has a name of two lines. *)
Definition two_line_fixture : Match :=
  fixture ("Nottingham" +:+ newline +:+ "Forest") "Everton" 11.

(** A generated text that is the JSON of a response with no prediction,
    and that response. *)
Definition empty_predictions_text : string := "{" +:+ quoted "predictions" +:+ ": []}".
Definition empty_predictions : PredictionResponse := {| predictions := [] |}.

Definition refusal_text : string := "I cannot predict football matches.".

Definition scenario_env : gmap string string :=
  <[ "FOOTBALL_API_KEY" := "football-key" ]> (<[ "GOOGLE_API_KEY" := "google-key" ]> ∅).

(** Both sports-data requests succeed and the text-generation service
    answers [generated]. *)
Definition scenario (generated : Reply JsValue) : Outside :=
  {| dotenv_file := ∅;
     date_from := "2026-01-01";
     date_to := "2026-01-11";
     standings_service := fun _ => Answer {| standings := [ {| table := scenario_standings |} ] |};
     matches_service := fun _ => Answer {| matches := Some scenario_fixtures |};
     gemini_service := fun _ => generated |}.

(** ** The earlier formatter *)

Module Previous.

(** formatFixtures as the earlier revision of index.ts, kept beside
    types.ts, has it: every fixture is rendered, none is filtered out. *)
Definition formatFixtures (fixtures : list Match) : string :=
  Array_join newline (Array_map render_fixture fixtures).

End Previous.

(** ** More of what the statements speak of *)

(** A completion that is no [process.exit]. *)
Definition no_exit {T} (c : Completion T) : Prop :=
  match c with
  | Exit _ => False
  | _ => True
  end.

(** A completion that throws no axios error. *)
Definition no_axios_error {T} (c : Completion T) : Prop :=
  match c with
  | Throw e => isAxiosError e = false
  | _ => True
  end.

(** Two entries agree on the eleven columns that formatStandingsTable
    copies. *)
Definition same_columns (a b : StandingEntry) : Prop :=
  a.(position) = b.(position) /\ a.(team).(name) = b.(team).(name) /\
  a.(playedGames) = b.(playedGames) /\ a.(won) = b.(won) /\ a.(draw) = b.(draw) /\
  a.(lost) = b.(lost) /\ a.(goalsFor) = b.(goalsFor) /\
  a.(goalsAgainst) = b.(goalsAgainst) /\ a.(goalDifference) = b.(goalDifference) /\
  a.(points) = b.(points) /\ a.(form) = b.(form).

(** The line that the catch block of main prints for [message]. *)
Definition main_error_line (message : string) : Level * list JsValue :=
  (ERROR, [JStr "❌ Error in main process:"; JStr message]).

(** An outside world that is the three given replies. *)
Definition replies (table_reply : Reply StandingsBody) (matches_reply : Reply MatchesBody)
    (generated : Reply JsValue) : Outside :=
  {| dotenv_file := ∅;
     date_from := "2026-01-01";
     date_to := "2026-01-11";
     standings_service := fun _ => table_reply;
     matches_service := fun _ => matches_reply;
     gemini_service := fun _ => generated |}.

Definition network_error : JsError := AxiosError "Network Error" None.

(** * Theorems *)

(** ** Arrays *)

Lemma Array_map_is_map {T U} (f : T -> U) (xs : list T) :
  Array_map f xs = List.map f xs.
Proof. induction xs as [|x rest IH]; simpl; [reflexivity | now rewrite IH]. Qed.

Lemma Array_filter_is_filter {T} (keep : T -> bool) (xs : list T) :
  Array_filter keep xs = List.filter keep xs.
Proof.
  induction xs as [|x rest IH]; simpl; [reflexivity |].
  destruct (keep x); now rewrite IH.
Qed.

Lemma Array_join_is_concat (sep : string) (xs : list string) :
  Array_join sep xs = String.concat sep xs.
Proof.
  induction xs as [|x rest IH]; [reflexivity |].
  destruct rest as [|y rest]; [reflexivity |].
  change (x +:+ sep +:+ Array_join sep (y :: rest) = x +:+ sep +:+ String.concat sep (y :: rest)).
  now rewrite IH.
Qed.

Lemma Array_at_is_lookup {T} (xs : list T) (i : nat) : Array_at xs i = xs !! i.
Proof.
  revert i; induction xs as [|x rest IH]; intros [|i]; simpl; auto.
Qed.

Lemma Array_map_app {T U} (f : T -> U) (xs ys : list T) :
  Array_map f (xs ++ ys) = Array_map f xs ++ Array_map f ys.
Proof. induction xs as [|x rest IH]; simpl; [reflexivity | now rewrite IH]. Qed.

Lemma Array_map_length {T U} (f : T -> U) (xs : list T) :
  length (Array_map f xs) = length xs.
Proof. induction xs as [|x rest IH]; simpl; [reflexivity | now rewrite IH]. Qed.

Lemma Array_map_lookup {T U} (f : T -> U) (xs : list T) (i : nat) :
  Array_map f xs !! i = f <$> xs !! i.
Proof.
  revert i; induction xs as [|x rest IH]; intros [|i]; simpl; auto.
Qed.

(** ** Table Formatter *)

(** C4. formatStandingsTable returns as many rows as it is given entries, in
    the same order: row [i] is made from entry [i] alone, its [P] is the
    entry's points as they are, and so for every other column. *)
Theorem formatStandingsTable_rows (standings : list StandingEntry) :
  length (formatStandingsTable standings) = length standings /\
  forall i : nat,
    P <$> formatStandingsTable standings !! i = points <$> standings !! i /\
    f_position <$> formatStandingsTable standings !! i = position <$> standings !! i /\
    f_team <$> formatStandingsTable standings !! i
      = (fun entry => entry.(team).(name)) <$> standings !! i /\
    MP <$> formatStandingsTable standings !! i = playedGames <$> standings !! i /\
    W <$> formatStandingsTable standings !! i = won <$> standings !! i /\
    D <$> formatStandingsTable standings !! i = draw <$> standings !! i /\
    L <$> formatStandingsTable standings !! i = lost <$> standings !! i /\
    F <$> formatStandingsTable standings !! i = goalsFor <$> standings !! i /\
    A <$> formatStandingsTable standings !! i = goalsAgainst <$> standings !! i /\
    GD <$> formatStandingsTable standings !! i = goalDifference <$> standings !! i /\
    f_form <$> formatStandingsTable standings !! i = form <$> standings !! i.
Proof.
  unfold formatStandingsTable. split.
  - apply Array_map_length.
  - intros i. rewrite Array_map_lookup.
    destruct (standings !! i) as [entry|]; simpl; repeat split; reflexivity.
Qed.

(** C10. formatStandingsTable distributes over concatenation. *)
Theorem formatStandingsTable_app (xs ys : list StandingEntry) :
  formatStandingsTable (xs ++ ys) = formatStandingsTable xs ++ formatStandingsTable ys.
Proof. unfold formatStandingsTable. apply Array_map_app. Qed.

(** ** Fixture Formatter *)

Lemma formatFixtures_nonempty (first : Match) (rest : list Match) :
  formatFixtures (first :: rest) =
  Normal (Array_join newline
            (Array_map render_fixture
               (Array_filter (fun m => m.(matchday) =? first.(matchday)) (first :: rest)))).
Proof. reflexivity. Qed.

Lemma formatFixtures_kept (fixtures : list Match) :
  formatFixtures fixtures =
  Normal (String.concat newline (List.map render_fixture (sharing_first_matchday fixtures))).
Proof.
  destruct fixtures as [|first rest]; [reflexivity |].
  rewrite formatFixtures_nonempty, Array_filter_is_filter, Array_map_is_map,
    Array_join_is_concat.
  reflexivity.
Qed.

(** C2. formatFixtures answers the empty text on the empty sequence, and
    never throws. On a sequence that starts with [first] its answer is the
    text of the retained fixtures, each written as home name, space, dash,
    space, away name, with a newline between two of them; the retained
    fixtures are those of the input whose matchday is the matchday of
    [first], in the order of the input, and no fixture of another matchday
    is among them. *)
Theorem formatFixtures_filters_and_renders :
  formatFixtures [] = Normal "" /\
  forall (first : Match) (rest : list Match),
    let kept := List.filter (fun m => m.(matchday) =? first.(matchday)) (first :: rest) in
    formatFixtures (first :: rest) =
      Normal (String.concat newline
                (List.map (fun m => m.(homeTeam).(name) +:+ " - " +:+ m.(awayTeam).(name))
                          kept)) /\
    kept `sublist_of` (first :: rest) /\
    (forall m, In m kept <-> In m (first :: rest) /\ m.(matchday) = first.(matchday)) /\
    (forall m, m.(matchday) <> first.(matchday) -> ~ In m kept).
Proof.
  split; [reflexivity |].
  intros first rest kept. split; [| split; [| split]].
  - apply (formatFixtures_kept (first :: rest)).
  - subst kept. generalize (first :: rest) as xs.
    induction xs as [|x xs IH]; simpl; [constructor |].
    destruct (x.(matchday) =? first.(matchday)); now constructor.
  - intros m. subst kept. rewrite List.filter_In, Z.eqb_eq. reflexivity.
  - intros m Hne Hin. subst kept. apply List.filter_In in Hin.
    destruct Hin as [_ Heq]. apply Z.eqb_eq in Heq. contradiction.
Qed.

(** ** Texts *)

Lemma append_cons (ch : ascii) (a b : string) : String ch a +:+ b = String ch (a +:+ b).
Proof. reflexivity. Qed.

Lemma append_empty_l (b : string) : "" +:+ b = b.
Proof. reflexivity. Qed.

Ltac push_append := rewrite ?append_cons, ?append_empty_l.

Lemma append_assoc (a b c : string) : (a +:+ b) +:+ c = a +:+ (b +:+ c).
Proof.
  induction a as [|ch a IH]; push_append; [reflexivity | now rewrite IH].
Qed.

Lemma append_empty_r (a : string) : a +:+ "" = a.
Proof.
  induction a as [|ch a IH]; push_append; [reflexivity | now rewrite IH].
Qed.

Lemma startsWith_append (needle rest : string) : startsWith (needle +:+ rest) needle = true.
Proof.
  induction needle as [|ch needle IH]; push_append; [now destruct rest |].
  simpl. now rewrite Ascii.eqb_refl, IH.
Qed.

Lemma includes_startsWith (s needle : string) :
  startsWith s needle = true -> includes s needle = true.
Proof. intros H. destruct s; simpl in *; now rewrite H. Qed.

Lemma includes_append (before needle after : string) :
  includes (before +:+ needle +:+ after) needle = true.
Proof.
  induction before as [|ch before IH]; push_append.
  - apply includes_startsWith, startsWith_append.
  - simpl. rewrite IH. apply orb_true_r.
Qed.

(** An element of a joined array is a piece of the joined text. *)
Lemma Array_join_In (sep : string) (xs : list string) (x : string) :
  In x xs -> exists before after, Array_join sep xs = before +:+ x +:+ after.
Proof.
  induction xs as [|y rest IH]; [intros [] |].
  intros [-> | Hin].
  - exists "". destruct rest as [|z rest].
    + exists "". simpl. now rewrite append_empty_r.
    + now exists (sep +:+ Array_join sep (z :: rest)).
  - destruct (IH Hin) as (before & after & E).
    destruct rest as [|z rest]; [destruct Hin |].
    exists (y +:+ sep +:+ before), after.
    change (y +:+ sep +:+ Array_join sep (z :: rest)
            = (y +:+ sep +:+ before) +:+ x +:+ after).
    now rewrite E, !append_assoc.
Qed.

Lemma has_newline_append (a b : string) :
  has_newline (a +:+ b) = has_newline a || has_newline b.
Proof.
  induction a as [|ch a IH]; push_append; simpl; [reflexivity |].
  now rewrite IH, orb_assoc.
Qed.

Lemma split_newlines_nonempty (s : string) : split_newlines s <> [].
Proof.
  destruct s as [|ch s]; simpl; [discriminate |].
  destruct (Ascii.eqb ch "010"); [discriminate |].
  destruct (split_newlines s); discriminate.
Qed.

Lemma split_newlines_one_line (s : string) :
  has_newline s = false -> split_newlines s = [s].
Proof.
  induction s as [|ch s IH]; simpl; [reflexivity |].
  destruct (Ascii.eqb ch "010"); simpl; [discriminate |].
  intros H. now rewrite (IH H).
Qed.

Lemma split_newlines_append (s rest : string) :
  has_newline s = false ->
  split_newlines (s +:+ newline +:+ rest) = s :: split_newlines rest.
Proof.
  induction s as [|ch s IH]; push_append; simpl.
  - intros _. unfold newline. push_append. reflexivity.
  - destruct (Ascii.eqb ch "010"); simpl; [discriminate |].
    intros H. now rewrite (IH H).
Qed.

Lemma split_newlines_join (xs : list string) :
  xs <> [] ->
  Forall (fun x => has_newline x = false) xs ->
  split_newlines (Array_join newline xs) = xs.
Proof.
  induction xs as [|x rest IH]; [congruence |].
  intros _ Hall. inversion Hall as [|? ? Hx Hrest]; subst.
  destruct rest as [|y rest].
  - simpl. now apply split_newlines_one_line.
  - change (split_newlines (x +:+ newline +:+ Array_join newline (y :: rest))
            = x :: y :: rest).
    rewrite split_newlines_append by assumption.
    rewrite IH; [reflexivity | discriminate | assumption].
Qed.

Lemma lines_nonempty_text (s : string) : s <> "" -> lines s = split_newlines s.
Proof. destruct s; [congruence | reflexivity]. Qed.

Lemma append_nonempty_l (a b : string) : a <> "" -> a +:+ b <> "".
Proof. destruct a; [congruence | discriminate]. Qed.

Lemma Array_join_nonempty (sep x : string) (rest : list string) :
  x <> "" -> Array_join sep (x :: rest) <> "".
Proof.
  intros Hx. destruct rest as [|y rest]; [exact Hx |].
  change (x +:+ sep +:+ Array_join sep (y :: rest) <> "").
  now apply append_nonempty_l.
Qed.

Lemma render_fixture_nonempty (m : Match) : render_fixture m <> "".
Proof.
  unfold render_fixture. destruct (m.(homeTeam).(name)); discriminate.
Qed.

Lemma render_fixture_one_line (m : Match) :
  names_on_one_line m = true -> has_newline (render_fixture m) = false.
Proof.
  unfold names_on_one_line, render_fixture. intros H.
  apply andb_prop in H. destruct H as [Hh Ha].
  apply negb_true_iff in Hh, Ha.
  rewrite !has_newline_append, Hh, Ha. reflexivity.
Qed.

(** ** Prompt Builder *)

(** C5. Whatever the rows and the fixtures text, the prompt holds the
    indented JSON of the rows and the fixtures text, each as one unbroken
    piece. *)
Theorem generatePrompt_embeds (standings : list FormattedStanding) (fixtures : string) :
  (exists before after,
      generatePrompt standings fixtures = before +:+ JSON_stringify standings +:+ after) /\
  (exists before after,
      generatePrompt standings fixtures = before +:+ fixtures +:+ after) /\
  includes (generatePrompt standings fixtures) (JSON_stringify standings) = true /\
  includes (generatePrompt standings fixtures) fixtures = true.
Proof.
  assert (Hs : exists before after,
             generatePrompt standings fixtures
             = before +:+ JSON_stringify standings +:+ after).
  { unfold generatePrompt. apply Array_join_In. simpl. tauto. }
  assert (Hf : exists before after,
             generatePrompt standings fixtures = before +:+ fixtures +:+ after).
  { unfold generatePrompt. apply Array_join_In. simpl. tauto. }
  split; [exact Hs |]. split; [exact Hf |].
  split.
  - destruct Hs as (before & after & E). rewrite E. apply includes_append.
  - destruct Hf as (before & after & E). rewrite E. apply includes_append.
Qed.

(** ** Fixture Formatter: the lines of the answer *)

Lemma first_is_kept (first : Match) (rest : list Match) :
  Array_filter (fun m => m.(matchday) =? first.(matchday)) (first :: rest)
  = first :: Array_filter (fun m => m.(matchday) =? first.(matchday)) rest.
Proof. simpl. now rewrite Z.eqb_refl. Qed.

Lemma sharing_first_matchday_cons (first : Match) (rest : list Match) :
  sharing_first_matchday (first :: rest)
  = first :: List.filter (fun m => m.(matchday) =? first.(matchday)) rest.
Proof. simpl. now rewrite Z.eqb_refl. Qed.

Lemma formatFixtures_joins (fixtures : list Match) :
  formatFixtures fixtures =
  Normal (Array_join newline (Array_map render_fixture (sharing_first_matchday fixtures))).
Proof.
  destruct fixtures as [|first rest]; [reflexivity |].
  now rewrite formatFixtures_nonempty, Array_filter_is_filter.
Qed.

Lemma lines_of_rendered (kept : list Match) :
  forallb names_on_one_line kept = true ->
  lines (Array_join newline (Array_map render_fixture kept))
  = Array_map render_fixture kept.
Proof.
  intros Hall. destruct kept as [|m kept]; [reflexivity |].
  rewrite lines_nonempty_text
    by (simpl Array_map; apply Array_join_nonempty, render_fixture_nonempty).
  apply split_newlines_join; [discriminate |].
  rewrite Array_map_is_map. apply Forall_map.
  apply Forall_forall. intros x Hx. apply render_fixture_one_line.
  rewrite forallb_forall in Hall. apply Hall. now apply list_elem_of_In.
Qed.

(** C3, as stated, fails on a fixture with a team name of two lines: one
    fixture shares the first matchday and the answer has two lines. *)
Lemma line_count_of_two_line_name :
  formatFixtures [two_line_fixture]
    = Normal ("Nottingham" +:+ newline +:+ "Forest - Everton") /\
  line_count ("Nottingham" +:+ newline +:+ "Forest - Everton") = 2%nat /\
  length (sharing_first_matchday [two_line_fixture]) = 1%nat /\
  line_count ("Nottingham" +:+ newline +:+ "Forest - Everton")
    <> length (sharing_first_matchday [two_line_fixture]).
Proof. repeat split. discriminate. Qed.

(** C3, amended. When no team name of a fixture that shares the matchday of
    the first one runs over a line end, the answer has as many lines as
    there are such fixtures. On the three fixtures of the scenario, two of
    matchday 11 and one of matchday 12, the answer has exactly two lines
    and the fixture of matchday 12 is not among them. *)
Theorem formatFixtures_line_count :
  (forall fixtures : list Match,
      forallb names_on_one_line (sharing_first_matchday fixtures) = true ->
      exists out,
        formatFixtures fixtures = Normal out /\
        line_count out = length (sharing_first_matchday fixtures)) /\
  formatFixtures scenario_fixtures
    = Normal ("Arsenal - Chelsea" +:+ newline +:+ "Liverpool - City") /\
  lines ("Arsenal - Chelsea" +:+ newline +:+ "Liverpool - City")
    = ["Arsenal - Chelsea"; "Liverpool - City"] /\
  sharing_first_matchday scenario_fixtures
    = [fixture "Arsenal" "Chelsea" 11; fixture "Liverpool" "City" 11].
Proof.
  split; [| repeat split].
  intros fixtures Hall.
  exists (Array_join newline (Array_map render_fixture (sharing_first_matchday fixtures))).
  split; [apply formatFixtures_joins |].
  unfold line_count. rewrite lines_of_rendered by assumption.
  apply Array_map_length.
Qed.

Lemma formatFixtures_line_count_scenario :
  forallb names_on_one_line (sharing_first_matchday scenario_fixtures) = true /\
  exists out,
    formatFixtures scenario_fixtures = Normal out /\
    line_count out = length (sharing_first_matchday scenario_fixtures).
Proof.
  split; [reflexivity |].
  apply (proj1 formatFixtures_line_count scenario_fixtures). reflexivity.
Defined.

(** C9, as stated, fails on the same fixture: the first line of the
    answer is the first line of the home team's name. *)
Lemma first_line_of_two_line_name :
  formatFixtures [two_line_fixture]
    = Normal ("Nottingham" +:+ newline +:+ "Forest - Everton") /\
  first_line ("Nottingham" +:+ newline +:+ "Forest - Everton") = Some "Nottingham" /\
  Some "Nottingham"
    <> Some (two_line_fixture.(homeTeam).(name) +:+ " - "
             +:+ two_line_fixture.(awayTeam).(name)).
Proof. repeat split. discriminate. Qed.

(** C9, amended. On a sequence that starts with [first] the answer is not
    empty and starts with the text of [first]; when neither team name of
    [first] runs over a line end, that text is the first line of the
    answer. *)
Theorem formatFixtures_first_line (first : Match) (rest : list Match) :
  exists out,
    formatFixtures (first :: rest) = Normal out /\
    out <> "" /\
    startsWith out (first.(homeTeam).(name) +:+ " - " +:+ first.(awayTeam).(name)) = true /\
    (names_on_one_line first = true ->
     first_line out
     = Some (first.(homeTeam).(name) +:+ " - " +:+ first.(awayTeam).(name))).
Proof.
  eexists. split; [apply formatFixtures_nonempty |].
  rewrite first_is_kept. simpl Array_map.
  set (others := Array_map render_fixture _).
  split; [apply Array_join_nonempty, render_fixture_nonempty |].
  split.
  - destruct others as [|x others]; simpl Array_join.
    + rewrite <- (append_empty_r (render_fixture first)) at 1.
      apply startsWith_append.
    + apply startsWith_append.
  - intros Hone. unfold first_line.
    rewrite lines_nonempty_text by apply Array_join_nonempty, render_fixture_nonempty.
    apply render_fixture_one_line in Hone.
    destruct others as [|x others]; simpl Array_join.
    + now rewrite split_newlines_one_line.
    + now rewrite split_newlines_append.
Qed.

Lemma formatFixtures_first_line_scenario :
  names_on_one_line (fixture "Arsenal" "Chelsea" 11) = true /\
  first_line ("Arsenal - Chelsea" +:+ newline +:+ "Liverpool - City")
  = Some "Arsenal - Chelsea".
Proof.
  split; [reflexivity |].
  destruct (formatFixtures_first_line (fixture "Arsenal" "Chelsea" 11)
              [fixture "Liverpool" "City" 11; fixture "Arsenal" "City" 12])
    as (out & Hout & _ & _ & Hline).
  injection Hout as <-. apply Hline. reflexivity.
Defined.

(** ** Prediction Client *)

(** The catch block of getPredictions prints one line more for an axios
    error. *)
Ltac handler_cases :=
  try match goal with
      | |- context [isAxiosError ?e] => destruct (isAxiosError e); simpl
      end.

Section PredictionClient.

Variable outside : Outside.
Variable prompt : string.
Variable s : State.

(** What getPredictions ends with, read off the answer of the service. *)
Lemma getPredictions_outcome :
  fst (getPredictions outside prompt s) =
  match outside.(gemini_service) (gemini_request s prompt) with
  | Rejected e => Throw e
  | Answer data =>
      match has_content data with
      | Normal condition =>
          if truthy condition then generated_text data
          else Throw (Error "Invalid response format from Gemini API")
      | Throw e => Throw e
      | Exit code => Exit code
      end
  end.
Proof.
  unfold getPredictions, try_catch, bind, console_log, process_env_get, axios, lift,
    ret, throw, when, console_error. simpl. fold (gemini_request s prompt).
  destruct (outside.(gemini_service) (gemini_request s prompt)) as [data | e]; simpl;
    [destruct (has_content data) as [condition | e | code]; simpl;
     [destruct (truthy condition); simpl;
      [destruct (generated_text data) as [text | e | code]; simpl | ] | | ] | ];
    handler_cases; reflexivity.
Qed.

(** getPredictions sends exactly one request and touches no file. *)
Lemma getPredictions_effects :
  requests (snd (getPredictions outside prompt s)) = requests s ++ [gemini_request s prompt] /\
  same_files s (snd (getPredictions outside prompt s)).
Proof.
  unfold same_files, getPredictions, try_catch, bind, console_log, process_env_get,
    axios, lift, ret, throw, when, console_error. simpl. fold (gemini_request s prompt).
  destruct (outside.(gemini_service) (gemini_request s prompt)) as [data | e]; simpl;
    [destruct (has_content data) as [condition | e | code]; simpl;
     [destruct (truthy condition); simpl;
      [destruct (generated_text data) as [text | e | code]; simpl | ] | | ] | ];
    handler_cases; auto.
Qed.

(** getPredictions returns only what a well-formed answer carries. *)
Lemma getPredictions_normal (text : JsValue) :
  fst (getPredictions outside prompt s) = Normal text ->
  exists data,
    outside.(gemini_service) (gemini_request s prompt) = Answer data /\
    content_exists data /\
    generated_text data = Normal text.
Proof.
  rewrite getPredictions_outcome.
  destruct (outside.(gemini_service) (gemini_request s prompt)) as [data | e];
    [| discriminate].
  destruct (has_content data) as [condition | e | code] eqn:Hcontent; try discriminate.
  destruct (truthy condition) eqn:Htruthy; [| discriminate].
  intros Htext. exists data. repeat split; [| exact Htext].
  now exists condition.
Qed.

(** A transport failure is rethrown as it came. *)
Lemma getPredictions_transport_failure (e : JsError) :
  outside.(gemini_service) (gemini_request s prompt) = Rejected e ->
  fst (getPredictions outside prompt s) = Throw e.
Proof. intros H. now rewrite getPredictions_outcome, H. Qed.

(** An answer whose [candidates] or whose first candidate's [content] is
    falsy is refused with the error of the else branch, which is no axios
    error. *)
Lemma getPredictions_invalid_format (data condition : JsValue) :
  outside.(gemini_service) (gemini_request s prompt) = Answer data ->
  has_content data = Normal condition ->
  truthy condition = false ->
  fst (getPredictions outside prompt s)
    = Throw (Error "Invalid response format from Gemini API") /\
  isAxiosError (Error "Invalid response format from Gemini API") = false.
Proof.
  intros Hanswer Hcontent Hfalsy.
  now rewrite getPredictions_outcome, Hanswer, Hcontent, Hfalsy.
Qed.

(** On an answer whose first candidate has a content, getPredictions
    returns [data.candidates[0].content.parts[0].text] as it is. *)
Lemma getPredictions_well_formed (data condition : JsValue) :
  outside.(gemini_service) (gemini_request s prompt) = Answer data ->
  has_content data = Normal condition ->
  truthy condition = true ->
  fst (getPredictions outside prompt s) = generated_text data.
Proof.
  intros Hanswer Hcontent Htruthy.
  now rewrite getPredictions_outcome, Hanswer, Hcontent, Htruthy.
Qed.

End PredictionClient.

(** A text is no prediction response, whatever it says. *)
Lemma text_is_no_PredictionResponse (text : string) (p : PredictionResponse) :
  JStr text <> PredictionResponse_to_js p.
Proof. discriminate. Qed.

(** ** The run of the program *)

Lemma same_files_refl (s : State) : same_files s s.
Proof. unfold same_files. auto. Qed.

Lemma same_files_trans (s1 s2 s3 : State) :
  same_files s1 s2 -> same_files s2 s3 -> same_files s1 s3.
Proof. unfold same_files. intuition congruence. Qed.

Lemma same_files_console (l : Level * list JsValue) (s s' : State) :
  same_files s s' -> same_files s (add_console l s').
Proof. unfold same_files. simpl. auto. Qed.

Lemma same_files_request (r : Request) (s s' : State) :
  same_files s s' -> same_files s (add_request r s').
Proof. unfold same_files. simpl. auto. Qed.

Create HintDb files.
#[local] Hint Resolve same_files_refl same_files_console same_files_request : files.

Section Fetchers.

Variable outside : Outside.
Variable s : State.

Lemma getStandings_outcome :
  fst (getStandings outside s) =
  match outside.(standings_service) (standings_request s) with
  | Rejected e => Throw e
  | Answer body => read (Array_at body.(standings) 0) "table" table
  end.
Proof.
  unfold getStandings, try_catch, bind, process_env_get, axios, lift, throw,
    console_error. simpl. fold (standings_request s).
  destruct (outside.(standings_service) (standings_request s)) as [body | e]; simpl;
    [| reflexivity].
  destruct (read (Array_at body.(standings) 0) "table" table); reflexivity.
Qed.

Lemma getStandings_effects :
  requests (snd (getStandings outside s)) = requests s ++ [standings_request s] /\
  same_files s (snd (getStandings outside s)).
Proof.
  unfold same_files, getStandings, try_catch, bind, process_env_get, axios, lift, throw,
    console_error. simpl. fold (standings_request s).
  destruct (outside.(standings_service) (standings_request s)) as [body | e]; simpl;
    [| auto].
  destruct (read (Array_at body.(standings) 0) "table" table); simpl; auto.
Qed.

Lemma getFixtures_outcome :
  fst (getFixtures outside s) =
  match outside.(matches_service) (matches_request outside s) with
  | Rejected e => Throw e
  | Answer body => Normal (match body.(matches) with Some found => found | None => [] end)
  end.
Proof.
  unfold getFixtures, try_catch, bind, process_env_get, axios, lift, throw, ret, when,
    console_log, console_warn, console_error. simpl. fold (matches_request outside s).
  destruct (outside.(matches_service) (matches_request outside s)) as [body | e]; simpl;
    [| reflexivity].
  destruct body.(matches) as [found |]; simpl; [| reflexivity].
  destruct (Z.of_nat (length found) =? 0); reflexivity.
Qed.

Lemma getFixtures_effects :
  requests (snd (getFixtures outside s)) = requests s ++ [matches_request outside s] /\
  same_files s (snd (getFixtures outside s)).
Proof.
  unfold same_files, getFixtures, try_catch, bind, process_env_get, axios, lift, throw,
    ret, when, console_log, console_warn, console_error. simpl.
  fold (matches_request outside s).
  destruct (outside.(matches_service) (matches_request outside s)) as [body | e]; simpl;
    [| auto].
  destruct body.(matches) as [found |]; simpl; [| auto].
  destruct (Z.of_nat (length found) =? 0); simpl; auto.
Qed.

End Fetchers.

Lemma standings_request_env (s s' : State) :
  same_files s s' -> standings_request s' = standings_request s.
Proof. intros (_ & _ & _ & E). unfold standings_request. now rewrite E. Qed.

Lemma matches_request_env (outside : Outside) (s s' : State) :
  same_files s s' -> matches_request outside s' = matches_request outside s.
Proof. intros (_ & _ & _ & E). unfold matches_request. now rewrite E. Qed.

Lemma gemini_request_env (prompt : string) (s s' : State) :
  same_files s s' -> gemini_request s' prompt = gemini_request s prompt.
Proof. intros (_ & _ & _ & E). unfold gemini_request. now rewrite E. Qed.

#[local] Arguments getStandings : simpl never.
#[local] Arguments getFixtures : simpl never.
#[local] Arguments getPredictions : simpl never.
#[local] Arguments generatePrompt : simpl never.
#[local] Arguments formatFixtures : simpl never.
#[local] Arguments formatStandingsTable : simpl never.

(** The files of a run of main change only after the three services have
    answered, the standings answer has a first table, the answer of the
    text-generation service has a content, and its text has been read:
    that is, only after getPredictions has returned. A failure of either
    fetch, of the transport to the text-generation service, or an answer
    of the wrong shape leaves every file as it was. *)
Lemma main_writes_only_after_predictions (outside : Outside) (s : State) :
  same_files s (snd (main outside s)) \/
  exists body1 entries body2 fixtures_text data text,
    outside.(standings_service) (standings_request s) = Answer body1 /\
    read (Array_at body1.(standings) 0) "table" table = Normal entries /\
    outside.(matches_service) (matches_request outside s) = Answer body2 /\
    formatFixtures (match body2.(matches) with Some found => found | None => [] end)
      = Normal fixtures_text /\
    outside.(gemini_service)
      (gemini_request s (generatePrompt (formatStandingsTable entries) fixtures_text))
      = Answer data /\
    content_exists data /\
    generated_text data = Normal text.
Proof.
  unfold main, try_catch, bind, console_log, lift. simpl.
  set (s1 := add_console _ (add_console _ s)).
  assert (G1 : same_files s s1) by (subst s1; auto with files).
  pose proof (getStandings_effects outside s1) as [_ F1].
  pose proof (getStandings_outcome outside s1) as O1.
  rewrite (standings_request_env _ _ G1) in O1.
  destruct (getStandings outside s1) as [[entries | e | c] s2]; simpl in *;
    [| left; unfold process_exit; simpl;
       eauto using same_files_trans, same_files_console ..].
  assert (G2 : same_files s s2) by eauto using same_files_trans.
  set (s3 := add_console _ (add_console _ s2)).
  assert (G3 : same_files s s3) by (subst s3; auto with files).
  pose proof (getFixtures_effects outside s3) as [_ F3].
  pose proof (getFixtures_outcome outside s3) as O3.
  rewrite (matches_request_env _ _ _ G3) in O3.
  destruct (getFixtures outside s3) as [[fixtures | e | c] s4]; simpl in *;
    [| left; unfold process_exit; simpl;
       eauto using same_files_trans, same_files_console ..].
  assert (G4 : same_files s s4) by eauto using same_files_trans.
  destruct (formatFixtures fixtures) as [fixtures_text | e | c] eqn:Hformat; simpl;
    [| left; unfold process_exit; simpl; auto with files ..].
  set (prompt := generatePrompt (formatStandingsTable entries) fixtures_text).
  set (s5 := add_console _ _).
  assert (G5 : same_files s s5) by (subst s5; auto 10 with files).
  pose proof (getPredictions_effects outside prompt s5) as [_ F5].
  pose proof (getPredictions_normal outside prompt s5) as O5.
  rewrite (gemini_request_env _ _ _ G5) in O5.
  destruct (getPredictions outside prompt s5) as [[text | e | c] s6]; simpl in *;
    [| left; unfold process_exit; simpl;
       eauto using same_files_trans, same_files_console ..].
  right.
  destruct (outside.(standings_service) (standings_request s)) as [body1 | e1];
    [| discriminate].
  destruct (outside.(matches_service) (matches_request outside s)) as [body2 | e2];
    [| discriminate].
  injection O3 as O3. subst fixtures.
  destruct (O5 text eq_refl) as (data & Hanswer & Hcontent & Htext).
  now exists body1, entries, body2, fixtures_text, data, text.
Qed.

(** The module body stops at the first of the two variables that is
    missing or empty, in the state that dotenv.config() left. *)
Lemma program_missing_variable (outside : Outside) (s : State) (key : string) :
  In key requiredEnvVars ->
  s.(process_env) !! key = None ->
  outside.(dotenv_file) !! key = None ->
  exists missing,
    In missing requiredEnvVars /\
    program outside s
    = (Throw (Error ("Missing required environment variable: " +:+ missing)),
       set_env (s.(process_env) ∪ outside.(dotenv_file)) s).
Proof.
  intros Hin He Hd.
  assert (Hu : (s.(process_env) ∪ outside.(dotenv_file)) !! key = None)
    by (apply lookup_union_None; auto).
  cbv beta iota delta [program bind dotenv_config for_of requiredEnvVars process_env_get
                         when ret throw].
  cbn [process_env set_env].
  destruct ((process_env s ∪ dotenv_file outside) !! "FOOTBALL_API_KEY") as [v|] eqn:E1.
  2: { exists "FOOTBALL_API_KEY". split; [simpl; auto | reflexivity]. }
  destruct (truthy (js_of_env (Some v))) eqn:T1.
  2: { exists "FOOTBALL_API_KEY". split; [simpl; auto | reflexivity]. }
  cbn [negb process_env set_env].
  destruct Hin as [<- | [<- | []]]; [congruence |].
  rewrite Hu. exists "GOOGLE_API_KEY". split; [simpl; auto | reflexivity].
Qed.

(** C7. When one of the two required variables is neither in the
    environment nor in the .env file, the module body throws the error that
    names a missing variable before main starts: the process ends with exit
    code 1, and it has sent no request, made no console call and written
    no file. *)
Theorem missing_variable_is_fatal (outside : Outside) (s : State) (key : string) :
  In key requiredEnvVars ->
  s.(process_env) !! key = None ->
  outside.(dotenv_file) !! key = None ->
  (exists missing,
      In missing requiredEnvVars /\
      fst (program outside s)
      = Throw (Error ("Missing required environment variable: " +:+ missing))) /\
  fst (run outside s) = 1 /\
  requests (snd (run outside s)) = requests s /\
  console (snd (run outside s)) = console s /\
  fs_writes (snd (run outside s)) = fs_writes s /\
  fs_files (snd (run outside s)) = fs_files s.
Proof.
  intros Hin He Hd.
  destruct (program_missing_variable outside s key Hin He Hd) as (missing & Hm & E).
  unfold run. rewrite E. simpl. repeat split; try reflexivity.
  now exists missing.
Qed.

Lemma missing_variable_is_fatal_without_google_key :
  In "GOOGLE_API_KEY" requiredEnvVars /\
  process_env (fresh (<[ "FOOTBALL_API_KEY" := "football-key" ]> ∅)) !! "GOOGLE_API_KEY"
    = None /\
  fst (run (scenario (Answer (answer_with_text (JStr empty_predictions_text))))
           (fresh (<[ "FOOTBALL_API_KEY" := "football-key" ]> ∅))) = 1 /\
  requests (snd (run (scenario (Answer (answer_with_text (JStr empty_predictions_text))))
                     (fresh (<[ "FOOTBALL_API_KEY" := "football-key" ]> ∅)))) = [].
Proof.
  split; [simpl; auto |]. split; [reflexivity |].
  destruct (missing_variable_is_fatal
              (scenario (Answer (answer_with_text (JStr empty_predictions_text))))
              (fresh (<[ "FOOTBALL_API_KEY" := "football-key" ]> ∅))
              "GOOGLE_API_KEY")
    as (_ & Hcode & Hrequests & _); [simpl; auto | reflexivity | reflexivity |].
  split; [exact Hcode | exact Hrequests].
Defined.

(** C1. Where the specification expects the parsed response, getPredictions
    returns the generated text itself: on the answer whose first part holds
    [text], for every prompt and from every state, it ends with the string
    [text], which is no prediction response. For the text that is the JSON
    of the response without predictions it does not return that
    response. *)
Theorem getPredictions_returns_the_text_unparsed (text prompt : string) (s : State) :
  fst (getPredictions (scenario (Answer (answer_with_text (JStr text)))) prompt s)
    = Normal (JStr text) /\
  (forall p : PredictionResponse, JStr text <> PredictionResponse_to_js p) /\
  fst (getPredictions (scenario (Answer (answer_with_text (JStr empty_predictions_text))))
         prompt s)
    <> Normal (PredictionResponse_to_js empty_predictions).
Proof.
  split; [| split].
  - now rewrite getPredictions_outcome.
  - apply text_is_no_PredictionResponse.
  - rewrite getPredictions_outcome. discriminate.
Qed.

(** The case that C6 names: a first candidate without content is
    refused with the error of the else branch. *)
Lemma getPredictions_candidate_without_content (prompt : string) (s : State) :
  fst (getPredictions (scenario (Answer (JObj [("candidates", JArr [JObj []])]))) prompt s)
  = Throw (Error "Invalid response format from Gemini API").
Proof. now rewrite getPredictions_outcome. Qed.

(** C6. On the answer with an empty list of candidates the specification
    expects the invalid response format error; getPredictions ends with
    the TypeError of reading [content] from undefined instead, for every
    prompt and from every state. *)
Theorem getPredictions_without_candidates (prompt : string) (s : State) :
  fst (getPredictions (scenario (Answer answer_without_candidates)) prompt s)
    = Throw (TypeError "Cannot read properties of undefined (reading 'content')") /\
  TypeError "Cannot read properties of undefined (reading 'content')"
    <> Error "Invalid response format from Gemini API".
Proof.
  split; [now rewrite getPredictions_outcome | discriminate].
Qed.

(** C8. Two runs in which the file is written although no parsed response
    was ever obtained. When the first part of the answer carries no text,
    getPredictions returns undefined, main empties the file, the second
    write is refused and the process ends with exit code 1. When the
    generated text is no JSON at all, the text is stored as it is and the
    process ends with exit code 0. *)
Theorem run_writes_without_parsed_response :
  (fst (run (scenario (Answer answer_without_text)) (fresh scenario_env)) = 1 /\
   fs_writes (snd (run (scenario (Answer answer_without_text)) (fresh scenario_env)))
     = [(outputPath, "")] /\
   fs_files (snd (run (scenario (Answer answer_without_text)) (fresh scenario_env)))
     !! outputPath = Some "") /\
  (fst (run (scenario (Answer (answer_with_text (JStr refusal_text)))) (fresh scenario_env))
     = 0 /\
   fs_writes (snd (run (scenario (Answer (answer_with_text (JStr refusal_text))))
                       (fresh scenario_env)))
     = [(outputPath, ""); (outputPath, refusal_text)] /\
   fs_files (snd (run (scenario (Answer (answer_with_text (JStr refusal_text))))
                      (fresh scenario_env)))
     !! outputPath = Some refusal_text).
Proof. repeat split; vm_compute; reflexivity. Qed.

(** * Further properties *)

(** ** Fixture Formatter and Table Formatter *)

Lemma filter_filter_same {T} (keep : T -> bool) (xs : list T) :
  List.filter keep (List.filter keep xs) = List.filter keep xs.
Proof.
  induction xs as [|x rest IH]; simpl; [reflexivity |].
  destruct (keep x) eqn:K; simpl; [rewrite K |]; now rewrite ?IH.
Qed.

Lemma filter_keeps_all {T} (keep : T -> bool) (xs : list T) :
  (forall x, In x xs -> keep x = true) -> List.filter keep xs = xs.
Proof.
  induction xs as [|x rest IH]; simpl; [reflexivity |].
  intros H. rewrite (H x) by auto. now rewrite IH by auto.
Qed.

(** X1. The text of formatFixtures is decided by the fixtures that share
    the matchday of the first one: formatting those alone gives the same
    text, so fixtures of other matchdays never show in it. *)
Theorem formatFixtures_ignores_other_matchdays (fixtures : list Match) :
  formatFixtures fixtures = formatFixtures (sharing_first_matchday fixtures).
Proof.
  rewrite (formatFixtures_joins (sharing_first_matchday fixtures)), formatFixtures_joins.
  destruct fixtures as [|first rest]; [reflexivity |].
  rewrite !sharing_first_matchday_cons. now rewrite filter_filter_same.
Qed.

(** X2. On fixtures that all belong to one matchday nothing is filtered
    out: formatFixtures gives the text of the earlier version of the
    function, which renders every fixture. *)
Theorem formatFixtures_one_matchday (fixtures : list Match) (day : number) :
  (forall m, In m fixtures -> m.(matchday) = day) ->
  formatFixtures fixtures = Normal (Previous.formatFixtures fixtures).
Proof.
  intros Hday. rewrite formatFixtures_joins. unfold Previous.formatFixtures.
  destruct fixtures as [|first rest]; [reflexivity |].
  unfold sharing_first_matchday. rewrite filter_keeps_all; [reflexivity |].
  intros m Hm. apply Z.eqb_eq. rewrite (Hday m Hm). symmetry. apply Hday. now left.
Qed.

Lemma formatFixtures_one_matchday_scenario :
  formatFixtures [fixture "Arsenal" "Chelsea" 11; fixture "Liverpool" "City" 11]
  = Normal ("Arsenal - Chelsea" +:+ newline +:+ "Liverpool - City").
Proof.
  rewrite (formatFixtures_one_matchday
             [fixture "Arsenal" "Chelsea" 11; fixture "Liverpool" "City" 11] 11).
  - reflexivity.
  - intros m [<- | [<- | []]]; reflexivity.
Defined.

(** X3. Two tables are formatted alike exactly when they have the same
    length and agree, row by row, on the eleven columns that are copied;
    the id, short name, abbreviation and crest of a team play no part. *)
Theorem formatStandingsTable_equal_iff (xs ys : list StandingEntry) :
  formatStandingsTable xs = formatStandingsTable ys <-> Forall2 same_columns xs ys.
Proof.
  unfold formatStandingsTable. revert ys.
  induction xs as [|x xs IH]; intros [|y ys]; simpl; split; intros H;
    try discriminate; try (now constructor); try (now inversion H).
  - injection H as ? ? ? ? ? ? ? ? ? ? ? Hrest.
    constructor; [unfold same_columns; auto 15 | now apply IH].
  - inversion H as [|? ? ? ? Hcols Hrest]; subst.
    destruct Hcols as (-> & -> & -> & -> & -> & -> & -> & -> & -> & -> & ->).
    f_equal. now apply IH.
Qed.

(** ** Prompt Builder *)

(** X4. The prompt is a fixed template around its two arguments: the same
    opening line, the same text between the table and the fixtures, and the
    same closing text, whatever the table and the fixtures are. *)
Theorem generatePrompt_template :
  exists middle footer : string,
    forall (standings : list FormattedStanding) (fixtures : string),
      generatePrompt standings fixtures =
      "Use this example football league table." +:+ newline +:+
      JSON_stringify standings +:+ middle +:+ fixtures +:+ footer.
Proof.
  exists (newline +:+
          Array_join newline
            [ ""; "Table headers are:"; "MP means Matches Played";
              "W means number of wins"; "D means number of draws";
              "L means number of losses"; "F means goals scored";
              "A means goals conceded"; "D is the goals difference";
              "P is the number of points"; "";
              "Assume that these are the fixtures:"; "" ] +:+ newline).
  eexists. intros standings fixtures.
  cbv [generatePrompt Array_join String.append newline quoted dquote].
  reflexivity.
Qed.

(** ** Standings Fetcher and Fixtures Fetcher *)

(** X5. getStandings returns the table of the first standings group and
    ignores any further group; a rejected request is rethrown as it came,
    and an answer with no group at all throws the TypeError of reading
    [table] from undefined. *)
Theorem getStandings_first_table (outside : Outside) (s : State) :
  fst (getStandings outside s) =
  match outside.(standings_service) (standings_request s) with
  | Rejected e => Throw e
  | Answer body =>
      match body.(standings) with
      | first :: _ => Normal first.(table)
      | [] => Throw (TypeError "Cannot read properties of undefined (reading 'table')")
      end
  end.
Proof.
  rewrite getStandings_outcome.
  destruct (outside.(standings_service) (standings_request s)) as [body | e];
    [| reflexivity].
  now destruct body.(standings).
Qed.

(** X6. Whatever the service answers, getStandings sends exactly one
    request, a GET of the standings of competition PL that carries the
    FOOTBALL_API_KEY of the environment as its X-Auth-Token, and changes no
    file; it prints one error line when it throws and nothing otherwise. *)
Theorem getStandings_effects_and_log (outside : Outside) (s : State) :
  requests (snd (getStandings outside s))
  = requests s ++
    [GET "http://api.football-data.org/v4/competitions/PL/standings"
         [("X-Auth-Token", js_of_env (s.(process_env) !! "FOOTBALL_API_KEY"))] []] /\
  same_files s (snd (getStandings outside s)) /\
  console (snd (getStandings outside s))
  = console s ++
    match fst (getStandings outside s) with
    | Throw e => [(ERROR, [JStr "Error fetching standings:"; JStr (message_of e)])]
    | _ => []
    end.
Proof.
  destruct (getStandings_effects outside s) as [Q F].
  split; [exact Q |]. split; [exact F |].
  unfold getStandings, try_catch, bind, process_env_get, axios, lift, throw,
    console_error. simpl.
  destruct (outside.(standings_service) _) as [body | e]; simpl; [| reflexivity].
  destruct (read (Array_at body.(standings) 0) "table" table); simpl;
    now rewrite ?app_nil_r.
Qed.


(** X8. getFixtures sends exactly one request, a GET of the matches of
    competition PL with the token, the two dates and the status SCHEDULED,
    and changes no file. After the line that announces the dates it prints
    one warning when the answer has no match, one error line when the
    request is rejected, and nothing when there are matches. *)
Theorem getFixtures_effects_and_log (outside : Outside) (s : State) :
  requests (snd (getFixtures outside s))
  = requests s ++
    [GET "http://api.football-data.org/v4/competitions/PL/matches"
         [("X-Auth-Token", js_of_env (s.(process_env) !! "FOOTBALL_API_KEY"))]
         [("dateFrom", JStr outside.(date_from)); ("dateTo", JStr outside.(date_to));
          ("status", JStr "SCHEDULED")]] /\
  same_files s (snd (getFixtures outside s)) /\
  console (snd (getFixtures outside s))
  = console s ++
    (LOG, [JStr ("📅 Fetching fixtures from " +:+ outside.(date_from) +:+ " to "
                 +:+ outside.(date_to))]) ::
    match outside.(matches_service) (matches_request outside s) with
    | Rejected e => [(ERROR, [JStr "Error fetching fixtures:"; JStr (message_of e)])]
    | Answer body =>
        match body.(matches) with
        | Some (_ :: _) => []
        | _ => [(WARN, [JStr "⚠️ No fixtures found in the specified date range"])]
        end
    end.
Proof.
  destruct (getFixtures_effects outside s) as [Q F].
  split; [exact Q |]. split; [exact F |].
  unfold getFixtures, try_catch, bind, process_env_get, axios, lift, throw, ret, when,
    console_log, console_warn, console_error. simpl.
  fold (matches_request outside s).
  destruct (outside.(matches_service) (matches_request outside s)) as [body | e]; simpl.
  - destruct body.(matches) as [[|m found] |]; simpl; now rewrite <- ?app_assoc.
  - now rewrite <- app_assoc.
Qed.

(** ** Prediction Client, further *)

Lemma bindC_no_exit {T U} (m : Completion T) (k : T -> Completion U) :
  no_exit m -> (forall x, no_exit (k x)) -> no_exit (bindC m k).
Proof. destruct m; simpl; auto. Qed.

Lemma bindC_no_axios_error {T U} (m : Completion T) (k : T -> Completion U) :
  no_axios_error m -> (forall x, no_axios_error (k x)) -> no_axios_error (bindC m k).
Proof. destruct m; simpl; auto. Qed.

Lemma get_plain (v : JsValue) (k : string) : no_exit (get v k) /\ no_axios_error (get v k).
Proof. now destruct v. Qed.

Lemma get0_plain (v : JsValue) : no_exit (get0 v) /\ no_axios_error (get0 v).
Proof. now destruct v. Qed.

Lemma has_content_plain (data : JsValue) :
  no_exit (has_content data) /\ no_axios_error (has_content data).
Proof.
  unfold has_content. split.
  - apply bindC_no_exit; [apply get_plain |].
    intros candidates. destruct (truthy candidates); [| exact I].
    apply bindC_no_exit; [apply get0_plain | intros; apply get_plain].
  - apply bindC_no_axios_error; [apply get_plain |].
    intros candidates. destruct (truthy candidates); [| exact I].
    apply bindC_no_axios_error; [apply get0_plain | intros; apply get_plain].
Qed.

Lemma generated_text_plain (data : JsValue) :
  no_exit (generated_text data) /\ no_axios_error (generated_text data).
Proof.
  unfold generated_text. split.
  - repeat (apply bindC_no_exit;
            [first [apply get_plain | apply get0_plain] | intros ?]).
    apply get_plain.
  - repeat (apply bindC_no_axios_error;
            [first [apply get_plain | apply get0_plain] | intros ?]).
    apply get_plain.
Qed.

(** The guard of getPredictions is truthy only on an answer that has
    candidates, a first candidate and a content, and then its value is
    that content. *)
Lemma has_content_truthy (data content : JsValue) :
  has_content data = Normal content ->
  truthy content = true ->
  exists candidates first,
    get data "candidates" = Normal candidates /\
    get0 candidates = Normal first /\
    get first "content" = Normal content.
Proof.
  unfold has_content. intros H T.
  destruct (get data "candidates") as [candidates | |] eqn:H1; simpl in H;
    try discriminate.
  destruct (truthy candidates) eqn:Tc.
  - destruct (get0 candidates) as [first | |] eqn:H2; simpl in H; try discriminate.
    now exists candidates, first.
  - injection H as ->. congruence.
Qed.

(** X9. Whatever the service answers, getPredictions sends exactly one
    request, a POST to the generateContent endpoint of gemini-2.0-flash with
    the GOOGLE_API_KEY of the environment in the query and the prompt and
    the generation settings in the body, and it changes no file. *)
Theorem getPredictions_sends_one_request (outside : Outside) (prompt : string) (s : State) :
  requests (snd (getPredictions outside prompt s))
  = requests s ++
    [POST ("https://generativelanguage.googleapis.com/v1beta/models/gemini-2.0-flash:generateContent?key="
           +:+ interpolate (js_of_env (s.(process_env) !! "GOOGLE_API_KEY")))
          (JObj [("contents", JArr [JObj [("parts", JArr [JObj [("text", JStr prompt)]])]]);
                 ("generationConfig",
                  JObj [("temperature", JNum (7 # 10)); ("topK", JNum 1);
                        ("topP", JNum 1); ("maxOutputTokens", JNum 2048)])])] /\
  same_files s (snd (getPredictions outside prompt s)).
Proof. exact (getPredictions_effects outside prompt s). Qed.

(** X10. When the request is rejected, getPredictions rethrows the same
    error and prints, after the line that announces the request, the
    message of the error, and for an axios error the body of its response
    as well. *)
Theorem getPredictions_rethrows_rejection
    (outside : Outside) (prompt : string) (s : State) (e : JsError) :
  outside.(gemini_service) (gemini_request s prompt) = Rejected e ->
  fst (getPredictions outside prompt s) = Throw e /\
  console (snd (getPredictions outside prompt s))
  = console s ++
    [(LOG, [JStr "🔄 Preparing AI request..."]);
     (ERROR, [JStr "❌ Error generating AI prediction:"; JStr (message_of e)])] ++
    match e with
    | AxiosError _ (Some data) => [(ERROR, [JStr "API Response:"; data])]
    | AxiosError _ None => [(ERROR, [JStr "API Response:"; JUndefined])]
    | _ => []
    end.
Proof.
  intros H.
  unfold getPredictions, try_catch, bind, console_log, process_env_get, axios, lift,
    ret, throw, when, console_error. simpl. fold (gemini_request s prompt).
  rewrite H. simpl.
  destruct e as [m | m | m [data |]]; simpl; split; try reflexivity;
    now rewrite <- !app_assoc.
Qed.

Lemma getPredictions_rethrows_network_error :
  fst (getPredictions (scenario (Rejected network_error)) "prompt" (fresh scenario_env))
  = Throw network_error.
Proof.
  apply (getPredictions_rethrows_rejection (scenario (Rejected network_error)) "prompt"
           (fresh scenario_env) network_error).
  reflexivity.
Defined.

(** X11. An answer on which the guard of getPredictions is falsy, because
    it has no candidates or because its first candidate has no content, is
    refused with the error Invalid response format from Gemini API, which
    is no axios error; the catch block prints its message and rethrows
    it. *)
Theorem getPredictions_refuses_missing_content
    (outside : Outside) (prompt : string) (s : State) (data condition : JsValue) :
  outside.(gemini_service) (gemini_request s prompt) = Answer data ->
  has_content data = Normal condition ->
  truthy condition = false ->
  fst (getPredictions outside prompt s)
    = Throw (Error "Invalid response format from Gemini API") /\
  isAxiosError (Error "Invalid response format from Gemini API") = false /\
  console (snd (getPredictions outside prompt s))
  = console s ++
    [(LOG, [JStr "🔄 Preparing AI request..."]);
     (ERROR, [JStr "❌ Error generating AI prediction:";
              JStr "Invalid response format from Gemini API"])].
Proof.
  intros Hanswer Hcontent Hfalsy.
  unfold getPredictions, try_catch, bind, console_log, process_env_get, axios, lift,
    ret, throw, when, console_error. simpl. fold (gemini_request s prompt).
  rewrite Hanswer. simpl. rewrite Hcontent. simpl. rewrite Hfalsy. simpl.
  repeat split. now rewrite <- !app_assoc.
Qed.

Lemma getPredictions_refuses_answer_without_candidates_field :
  fst (getPredictions (scenario (Answer (JObj [("promptFeedback", JObj [])])))
         "prompt" (fresh scenario_env))
  = Throw (Error "Invalid response format from Gemini API").
Proof.
  apply (getPredictions_refuses_missing_content
           (scenario (Answer (JObj [("promptFeedback", JObj [])])))
           "prompt" (fresh scenario_env) (JObj [("promptFeedback", JObj [])]) JUndefined);
    reflexivity.
Defined.

(** X12. An axios error that comes out of getPredictions is the error with
    which the request was rejected: no answer, whatever its shape, makes
    getPredictions throw an axios error. *)
Theorem getPredictions_axios_error_is_rejection
    (outside : Outside) (prompt : string) (s : State) (e : JsError) :
  fst (getPredictions outside prompt s) = Throw e ->
  isAxiosError e = true ->
  outside.(gemini_service) (gemini_request s prompt) = Rejected e.
Proof.
  rewrite getPredictions_outcome. intros H A.
  destruct (outside.(gemini_service) (gemini_request s prompt)) as [data | e'];
    [exfalso | congruence].
  destruct (has_content_plain data) as [_ Hc].
  destruct (generated_text_plain data) as [_ Ht].
  destruct (has_content data) as [condition | e' | c]; try discriminate.
  - destruct (truthy condition).
    + rewrite H in Ht. simpl in Ht. congruence.
    + injection H as <-. discriminate.
  - injection H as ->. simpl in Hc. congruence.
Qed.

Lemma getPredictions_axios_error_is_rejection_scenario :
  gemini_service (scenario (Rejected network_error))
    (gemini_request (fresh scenario_env) "prompt")
  = Rejected network_error.
Proof.
  apply (getPredictions_axios_error_is_rejection
           (scenario (Rejected network_error)) "prompt" (fresh scenario_env) network_error);
    reflexivity.
Defined.

(** X13. On an answer that passes the guard, getPredictions ends as the
    read of [parts[0].text] from the very content that the guard saw: with
    the text when it is there, with undefined when the first part has no
    text, and with a TypeError when the content has no parts. *)
Theorem getPredictions_reads_guarded_content
    (outside : Outside) (prompt : string) (s : State) (data content : JsValue) :
  outside.(gemini_service) (gemini_request s prompt) = Answer data ->
  has_content data = Normal content ->
  truthy content = true ->
  fst (getPredictions outside prompt s)
  = (parts <-- get content "parts" ;; part <-- get0 parts ;; get part "text").
Proof.
  intros Hanswer Hcontent Htruthy.
  rewrite (getPredictions_well_formed outside prompt s data content) by assumption.
  destruct (has_content_truthy data content Hcontent Htruthy)
    as (candidates & first & H1 & H2 & H3).
  unfold generated_text. rewrite H1. simpl. rewrite H2. simpl. now rewrite H3.
Qed.

Lemma getPredictions_reads_guarded_content_without_parts :
  fst (getPredictions (scenario (Answer (JObj [("candidates",
                                                 JArr [JObj [("content", JObj [])]])])))
         "prompt" (fresh scenario_env))
  = Throw (TypeError "Cannot read properties of undefined (reading '0')").
Proof.
  rewrite (getPredictions_reads_guarded_content
             (scenario (Answer (JObj [("candidates", JArr [JObj [("content", JObj [])]])])))
             "prompt" (fresh scenario_env)
             (JObj [("candidates", JArr [JObj [("content", JObj [])]])])
             (JObj [])); reflexivity.
Defined.

(** ** The run of the program, further *)

Lemma getStandings_result (outside : Outside) (s : State) :
  exists s',
    same_files s s' /\
    requests s' = requests s ++ [standings_request s] /\
    ((exists body entries,
         getStandings outside s = (Normal entries, s') /\
         outside.(standings_service) (standings_request s) = Answer body /\
         read (Array_at body.(standings) 0) "table" table = Normal entries) \/
     (exists e, getStandings outside s = (Throw e, s'))).
Proof.
  exists (snd (getStandings outside s)).
  destruct (getStandings_effects outside s) as [Q F].
  pose proof (getStandings_outcome outside s) as O.
  split; [exact F |]. split; [exact Q |].
  destruct (getStandings outside s) as [c s']. simpl in *. subst c.
  destruct (outside.(standings_service) (standings_request s)) as [body | e];
    [| right; now exists e].
  destruct (read (Array_at body.(standings) 0) "table" table) as [entries | e | c] eqn:R.
  - left. now exists body, entries.
  - right. now exists e.
  - unfold read in R. destruct (Array_at body.(standings) 0); discriminate.
Qed.

Lemma getFixtures_result (outside : Outside) (s : State) :
  exists s',
    same_files s s' /\
    requests s' = requests s ++ [matches_request outside s] /\
    ((exists body,
         getFixtures outside s
         = (Normal (match body.(matches) with Some found => found | None => [] end), s') /\
         outside.(matches_service) (matches_request outside s) = Answer body) \/
     (exists e, getFixtures outside s = (Throw e, s'))).
Proof.
  exists (snd (getFixtures outside s)).
  destruct (getFixtures_effects outside s) as [Q F].
  pose proof (getFixtures_outcome outside s) as O.
  split; [exact F |]. split; [exact Q |].
  destruct (getFixtures outside s) as [c s']. simpl in *. subst c.
  destruct (outside.(matches_service) (matches_request outside s)) as [body | e].
  - left. now exists body.
  - right. now exists e.
Qed.

Lemma getPredictions_result (outside : Outside) (prompt : string) (s : State) :
  exists s',
    same_files s s' /\
    requests s' = requests s ++ [gemini_request s prompt] /\
    ((exists data v,
         getPredictions outside prompt s = (Normal v, s') /\
         outside.(gemini_service) (gemini_request s prompt) = Answer data /\
         content_exists data /\
         generated_text data = Normal v) \/
     (exists e, getPredictions outside prompt s = (Throw e, s'))).
Proof.
  exists (snd (getPredictions outside prompt s)).
  destruct (getPredictions_effects outside prompt s) as [Q F].
  pose proof (getPredictions_outcome outside prompt s) as O.
  pose proof (getPredictions_normal outside prompt s) as N.
  split; [exact F |]. split; [exact Q |].
  destruct (getPredictions outside prompt s) as [[v | e | c] s']; simpl in *.
  - left. destruct (N v eq_refl) as (data & ? & ? & ?). now exists data, v.
  - right. now exists e.
  - exfalso.
    destruct (outside.(gemini_service) (gemini_request s prompt)) as [data | e];
      [| discriminate].
    destruct (has_content_plain data) as [H1 _].
    destruct (generated_text_plain data) as [H2 _].
    destruct (has_content data) as [condition | e | c']; try discriminate; [| easy].
    destruct (truthy condition); [| discriminate].
    rewrite <- O in H2. exact H2.
Qed.

Ltac failed_run G :=
  left; do 3 eexists;
  split; [reflexivity | split; [exact G | split; [eassumption | eauto]]].

(** Every run of main is of one of two kinds. Either a step before the
    writing threw: the catch block prints the message and exits with 1 from
    a state with the files of the start. Or getPredictions returned the
    value [v] read from the answer [data]: then the directory is made if
    it is missing and the file is emptied, and the value is written when
    it is a text and refused when it is not. *)
Lemma main_inversion (outside : Outside) (s : State) :
  (exists e s' sent,
      main outside s = (Exit 1, add_console (main_error_line (message_of e)) s') /\
      same_files s s' /\
      requests s' = requests s ++ sent /\
      (sent = [standings_request s] \/
       sent = [standings_request s; matches_request outside s] \/
       exists prompt,
         sent = [standings_request s; matches_request outside s; gemini_request s prompt]))
  \/
  (exists body1 entries body2 fixtures_text data v s',
      outside.(standings_service) (standings_request s) = Answer body1 /\
      outside.(matches_service) (matches_request outside s) = Answer body2 /\
      same_files s s' /\
      requests s'
      = requests s ++ [standings_request s; matches_request outside s;
                       gemini_request s
                         (generatePrompt (formatStandingsTable entries) fixtures_text)] /\
      outside.(gemini_service)
        (gemini_request s (generatePrompt (formatStandingsTable entries) fixtures_text))
      = Answer data /\
      content_exists data /\
      generated_text data = Normal v /\
      main outside s
      = let ready := if bool_decide ("./output" ∈ fs_dirs s') then s'
                     else add_dir "./output" s' in
        match v with
        | JStr text =>
            (Normal tt,
             add_console (LOG, [JStr ("✅ Predictions have been saved to: " +:+ outputPath)])
               (put_file outputPath text (put_file outputPath "" ready)))
        | _ =>
            (Exit 1,
             add_console (main_error_line invalid_data_message)
               (put_file outputPath "" ready))
        end).
Proof.
  unfold main, try_catch, bind, console_log, lift. simpl.
  set (s1 := add_console _ (add_console _ s)).
  assert (G1 : same_files s s1) by (subst s1; auto with files).
  destruct (getStandings_result outside s1)
    as (s2 & F1 & Q1 & [(body1 & entries & E1 & A1 & _) | (e & E1)]); rewrite E1; simpl;
    try rewrite (standings_request_env _ _ G1) in A1;
    rewrite (standings_request_env _ _ G1) in Q1; simpl in Q1;
    assert (G2 : same_files s s2) by eauto using same_files_trans.
  2: { failed_run G2. }
  set (s3 := add_console _ (add_console _ s2)).
  assert (G3 : same_files s s3) by (subst s3; auto with files).
  destruct (getFixtures_result outside s3)
    as (s4 & F3 & Q3 & [(body2 & E3 & A3) | (e & E3)]); rewrite E3; simpl;
    try rewrite (matches_request_env _ _ _ G3) in A3;
    rewrite (matches_request_env _ _ _ G3) in Q3; simpl in Q3; rewrite Q1 in Q3;
    rewrite <- app_assoc in Q3; simpl in Q3;
    assert (G4 : same_files s s4) by eauto using same_files_trans.
  2: { failed_run G4. }
  rewrite formatFixtures_joins.
  set (fixtures_text := Array_join newline _).
  set (prompt := generatePrompt (formatStandingsTable entries) fixtures_text).
  set (s5 := add_console _ _).
  assert (G5 : same_files s s5) by (subst s5; auto 10 with files).
  destruct (getPredictions_result outside prompt s5)
    as (s6 & F5 & Q5 & [(data & v & E5 & Hanswer & Hcontent & Htext) | (e & E5)]);
    rewrite E5; simpl;
    rewrite (gemini_request_env _ _ _ G5) in Q5; simpl in Q5; rewrite Q3 in Q5;
    rewrite <- app_assoc in Q5; simpl in Q5;
    assert (G6 : same_files s s6) by eauto using same_files_trans.
  2: { failed_run G6. }
  right.
  exists body1, entries, body2, fixtures_text, data, v,
    (add_console (LOG, [JStr "✅ AI predictions received!"]) s6).
  rewrite (gemini_request_env _ _ _ G5) in Hanswer.
  split; [exact A1 |]. split; [exact A3 |].
  split; [auto with files |]. split; [exact Q5 |]. split; [exact Hanswer |].
  split; [exact Hcontent |]. split; [exact Htext |].
  simpl. destruct (bool_decide ("./output" ∈ fs_dirs s6)); simpl;
    destruct v; reflexivity.
Qed.




(** X15. main never lets an error out: it ends normally, or it exits with
    1 and the last line on the console is the report of the catch block
    with the message of the error. *)
Theorem main_reports_every_failure (outside : Outside) (s : State) :
  fst (main outside s) = Normal tt \/
  (fst (main outside s) = Exit 1 /\
   exists message,
     last (console (snd (main outside s))) = Some (main_error_line message)).
Proof.
  destruct (main_inversion outside s)
    as [(e & s' & sent & E & _)
       | (body1 & entries & body2 & text & data & v & s' & _ & _ & _ & _ & _ & _ & _ & E)];
    rewrite E.
  - right. split; [reflexivity |]. exists (message_of e). simpl. apply last_snoc.
  - destruct v; simpl; try (left; reflexivity);
      right; (split; [reflexivity |]); exists invalid_data_message; apply last_snoc.
Qed.






(** ** The module body *)

(** The module body in full: after dotenv.config() the two variables are
    checked in their order, and main starts only when both are set and not
    empty. *)
Lemma program_checks (outside : Outside) (s : State) :
  let started := set_env (s.(process_env) ∪ outside.(dotenv_file)) s in
  program outside s =
  if truthy (js_of_env (started.(process_env) !! "FOOTBALL_API_KEY")) then
    if truthy (js_of_env (started.(process_env) !! "GOOGLE_API_KEY")) then
      main outside started
    else
      (Throw (Error "Missing required environment variable: GOOGLE_API_KEY"), started)
  else
    (Throw (Error "Missing required environment variable: FOOTBALL_API_KEY"), started).
Proof.
  cbv beta iota zeta delta [program bind dotenv_config for_of requiredEnvVars
                              process_env_get when ret throw].
  cbn [process_env set_env].
  destruct (truthy (js_of_env ((process_env s ∪ dotenv_file outside)
                                 !! "FOOTBALL_API_KEY"))); cbn [negb]; [| reflexivity].
  cbn [process_env set_env].
  destruct (truthy (js_of_env ((process_env s ∪ dotenv_file outside)
                                 !! "GOOGLE_API_KEY"))); cbn [negb]; [| reflexivity].
  now destruct (main outside _) as [[[] | |] ?].
Qed.

(** X19. When, after the .env file has been read, both required variables
    have a value that is not empty, the module body runs main from the
    environment that dotenv.config() left and does nothing else: the run
    of the program is that run of main. *)
Theorem program_starts_main (outside : Outside) (s : State) (football google : string) :
  (s.(process_env) ∪ outside.(dotenv_file)) !! "FOOTBALL_API_KEY" = Some football ->
  (s.(process_env) ∪ outside.(dotenv_file)) !! "GOOGLE_API_KEY" = Some google ->
  football <> "" -> google <> "" ->
  program outside s
  = main outside (set_env (s.(process_env) ∪ outside.(dotenv_file)) s).
Proof.
  intros Hf Hg Nf Ng. rewrite program_checks. cbn [process_env set_env].
  rewrite Hf, Hg. simpl.
  apply String.eqb_neq in Nf, Ng. now rewrite Nf, Ng.
Qed.

Lemma program_starts_main_scenario :
  fst (program
         (replies (Rejected network_error) (Answer {| matches := None |})
                  (Answer answer_without_candidates))
         (fresh scenario_env)) = Exit 1.
Proof.
  rewrite (program_starts_main _ _ "football-key" "google-key");
    try reflexivity; discriminate.
Defined.

(** X20. A required variable that is set to the empty text counts as
    missing: the module body throws before main starts, the process ends
    with exit code 1, and no request is sent and no file written. *)
Theorem empty_variable_is_fatal (outside : Outside) (s : State) (key : string) :
  In key requiredEnvVars ->
  (s.(process_env) ∪ outside.(dotenv_file)) !! key = Some "" ->
  fst (run outside s) = 1 /\
  requests (snd (run outside s)) = requests s /\
  console (snd (run outside s)) = console s /\
  fs_writes (snd (run outside s)) = fs_writes s /\
  fs_files (snd (run outside s)) = fs_files s.
Proof.
  intros Hin Hempty. unfold run. rewrite program_checks. cbn [process_env set_env].
  destruct Hin as [<- | [<- | []]].
  - rewrite Hempty. simpl. auto.
  - rewrite Hempty.
    destruct (truthy (js_of_env (_ !! "FOOTBALL_API_KEY"))); simpl; auto.
Qed.

Lemma empty_google_key_is_fatal :
  fst (run (scenario (Answer (answer_with_text (JStr refusal_text))))
           (fresh (<[ "GOOGLE_API_KEY" := "" ]> scenario_env))) = 1.
Proof.
  apply (empty_variable_is_fatal
           (scenario (Answer (answer_with_text (JStr refusal_text))))
           (fresh (<[ "GOOGLE_API_KEY" := "" ]> scenario_env)) "GOOGLE_API_KEY").
  - simpl. auto.
  - reflexivity.
Defined.

